(** * cliapi: the agent session client and the OpenAI-compatible gateway

    A shallow embedding of [agent-client.py] (the FIFO session protocol:
    [read_responses], [extract_text], [call]) and of [agent_server.py]
    (the HTTP gateway: routing, prompt flattening, the one-shot agent
    invocation, the completion object and the simulated SSE stream),
    followed by the properties the specification states about them.

    Python values are modelled by the type [value]; a Python [str] is the
    list of its Unicode code points; code that can raise lives in the
    error monad [exc]; the outside world (the two FIFOs, the agent
    subprocess, the clock, the uuid source, the [json] module) is held
    in explicit records and classes. *)

From Stdlib Require Import String Ascii ZArith NArith Bool Lia List DecimalString.
From Stdlib Require Import Floats.PrimFloat.
Import ListNotations.
Local Open Scope Z_scope.
Local Open Scope list_scope.

(** ** Python strings *)

(** A [str] is a sequence of code points. *)
Definition char := N.
Definition pystr := list char.

(** The code points of an ASCII literal of the source. *)
Definition py (s : string) : pystr :=
  List.map N_of_ascii (list_ascii_of_string s).

Arguments py s : simpl never.

Definition nl : pystr := [10%N].

Fixpoint str_eqb (a b : pystr) : bool :=
  match a, b with
  | [], [] => true
  | x :: a', y :: b' => N.eqb x y && str_eqb a' b'
  | _, _ => false
  end.

Definition nonempty (s : pystr) : bool :=
  match s with [] => false | _ => true end.

(** [str.isspace] on one code point: the characters Python's [split()]
    and [strip()] without arguments treat as whitespace. *)
Definition is_space (c : char) : bool :=
  ((9 <=? c) && (c <=? 13) || (28 <=? c) && (c <=? 32)
   || (c =? 133) || (c =? 160) || (c =? 5760)
   || (8192 <=? c) && (c <=? 8202)
   || (c =? 8232) || (c =? 8233) || (c =? 8239) || (c =? 8287)
   || (c =? 12288))%N.

Fixpoint lstrip (s : pystr) : pystr :=
  match s with
  | c :: s' => if is_space c then lstrip s' else s
  | [] => []
  end.

Fixpoint rstrip (s : pystr) : pystr :=
  match s with
  | [] => []
  | c :: s' =>
      match rstrip s' with
      | [] => if is_space c then [] else [c]
      | r => c :: r
      end
  end.

(** [s.strip()] *)
Definition strip (s : pystr) : pystr := rstrip (lstrip s).

(** [s.split()]: the maximal runs of non-whitespace characters.  [cur]
    is the word being read, in reverse. *)
Fixpoint split_words (cur : pystr) (s : pystr) : list pystr :=
  match s with
  | [] => match cur with [] => [] | _ => [rev cur] end
  | c :: s' =>
      if is_space c
      then match cur with
           | [] => split_words [] s'
           | _ => rev cur :: split_words [] s'
           end
      else split_words (c :: cur) s'
  end.

Definition split (s : pystr) : list pystr := split_words [] s.

(** [buffer.split("\n", 1)] when ["\n" in buffer]: the text before the
    first newline and the text after it; [None] when there is no
    newline. *)
Fixpoint split_newline (s : pystr) : option (pystr * pystr) :=
  match s with
  | [] => None
  | c :: s' =>
      if (c =? 10)%N then Some ([], s')
      else match split_newline s' with
           | Some (line, rest) => Some (c :: line, rest)
           | None => None
           end
  end.

(** [sep.join(parts)] on strings. *)
Fixpoint join (sep : pystr) (parts : list pystr) : pystr :=
  match parts with
  | [] => []
  | [x] => x
  | x :: xs => x ++ sep ++ join sep xs
  end.

(** [s.startswith(p)] *)
Fixpoint startswith (s p : pystr) : bool :=
  match p, s with
  | [], _ => true
  | x :: p', y :: s' => N.eqb x y && startswith s' p'
  | _ :: _, [] => false
  end.

Fixpoint endswith_char (s : pystr) (c : char) : bool :=
  match s with
  | [] => false
  | [x] => N.eqb x c
  | _ :: s' => endswith_char s' c
  end.

(** [s[i:j]] for [0 <= i <= j]. *)
Definition slice (s : pystr) (i j : nat) : pystr :=
  firstn (j - i) (skipn i s).

(** [range(0, stop, step)] for a positive step. *)
Fixpoint range_from (fuel : nat) (start stop step : nat) : list nat :=
  match fuel with
  | O => []
  | S fuel' =>
      if Nat.ltb start stop
      then start :: range_from fuel' (start + step) stop step
      else []
  end.

Definition range (stop step : nat) : list nat := range_from stop 0 stop step.

(** [os.path.join(a, b)] (posixpath). *)
Definition os_path_join (a b : pystr) : pystr :=
  if startswith b (py "/") then b
  else if negb (nonempty a) || endswith_char a 47%N then a ++ b
  else a ++ py "/" ++ b.

(** ** Python values *)

(** The values the program handles: what [json.loads] and Flask's
    [get_json] return, and the dict and list literals of the source.
    A dict keeps its items in insertion order; its keys are strings and
    are pairwise distinct, and lookup takes the first match. *)
#[warnings="-register-all"]
Inductive value : Type :=
| VNone
| VBool (b : bool)
| VInt (z : Z)
| VFloat (f : float)
| VStr (s : pystr)
| VList (l : list value)
| VDict (d : list (pystr * value)).

Definition type_name (v : value) : pystr :=
  match v with
  | VNone => py "NoneType"
  | VBool _ => py "bool"
  | VInt _ => py "int"
  | VFloat _ => py "float"
  | VStr _ => py "str"
  | VList _ => py "list"
  | VDict _ => py "dict"
  end.

(** Truth value of an object, as [if x:] / [not x] / [x or y] test it. *)
Definition truthy (v : value) : bool :=
  match v with
  | VNone => false
  | VBool b => b
  | VInt z => negb (z =? 0)
  | VFloat f => negb (PrimFloat.eqb f PrimFloat.zero)
  | VStr s => nonempty s
  | VList l => match l with [] => false | _ => true end
  | VDict d => match d with [] => false | _ => true end
  end.

(** [v == "literal"] *)
Definition is_str (v : value) (s : pystr) : bool :=
  match v with
  | VStr t => str_eqb t s
  | _ => false
  end.

(** [isinstance(v, dict)] *)
Definition is_dict (v : value) : bool :=
  match v with VDict _ => true | _ => false end.

Fixpoint lookup (d : list (pystr * value)) (k : pystr) : option value :=
  match d with
  | [] => None
  | (k', v) :: d' => if str_eqb k' k then Some v else lookup d' k
  end.

(** ** Exceptions *)

Inductive exn_class : Type :=
| TimeoutError
| RuntimeError
| AttributeError
| TypeError
| KeyError
| UnicodeDecodeError
| FileNotFoundError
| OtherException (name : pystr).

(** An exception object: its class and [str(e)]. *)
Record exn : Type := Exn { exn_type : exn_class; exn_str : pystr }.

Inductive exc (A : Type) : Type :=
| Ok (a : A)
| Raise (e : exn).
Arguments Ok {A} a.
Arguments Raise {A} e.

Definition bind {A B : Type} (m : exc A) (k : A -> exc B) : exc B :=
  match m with
  | Ok a => k a
  | Raise e => Raise e
  end.

Declare Scope exc_scope.
Delimit Scope exc_scope with exc.
Notation "x <- m ;; k" := (bind m (fun x => k))
  (at level 61, m at next level, right associativity) : exc_scope.
Local Open Scope exc_scope.

Definition no_attribute (v : value) (attr : pystr) : exn :=
  Exn AttributeError
      (py "'" ++ type_name v ++ py "' object has no attribute '" ++ attr ++ py "'").

Definition not_iterable (v : value) : exn :=
  Exn TypeError (py "'" ++ type_name v ++ py "' object is not iterable").

Definition unhashable (v : value) : exn :=
  Exn TypeError (py "unhashable type: '" ++ type_name v ++ py "'").

(** [d.get(k, default)] on a dict. *)
Definition dict_get (d : list (pystr * value)) (k : pystr) (default : value)
  : value :=
  match lookup d k with Some x => x | None => default end.

(** [v.get(k, default)]: only a dict has the method. *)
Definition get (v : value) (k : pystr) (default : value) : exc value :=
  match v with
  | VDict d => Ok (dict_get d k default)
  | _ => Raise (no_attribute v (py "get"))
  end.

(** [for x in v]: the items a [for] loop visits. *)
Definition iterate (v : value) : exc (list value) :=
  match v with
  | VList l => Ok l
  | VStr s => Ok (List.map (fun c => VStr [c]) s)
  | VDict d => Ok (List.map (fun kv => VStr (fst kv)) d)
  | _ => Raise (not_iterable v)
  end.

(** The part of the Python runtime the program calls and this development
    takes as given: the [json] module and [repr]. *)
Class Runtime : Type := {
  json_dumps : value -> pystr;
  json_loads : pystr -> option value;   (* [None]: [JSONDecodeError] *)
  py_repr : value -> pystr
}.

(** [str(v)], also what an f-string writes for [{v}]. *)
Definition py_str `{Runtime} (v : value) : pystr :=
  match v with
  | VStr s => s
  | _ => py_repr v
  end.

(** [sep.join(parts)] where [parts] is a list of objects. *)
Fixpoint join_values_from `{Runtime} (i : Z) (sep : pystr) (parts : list value)
  : exc pystr :=
  match parts with
  | [] => Ok []
  | VStr s :: rest =>
      match rest with
      | [] => Ok s
      | _ => r <- join_values_from (i + 1) sep rest ;; Ok (s ++ sep ++ r)
      end
  | v :: _ =>
      Raise (Exn TypeError
               (py "sequence item " ++ py_repr (VInt i)
                ++ py ": expected str instance, " ++ type_name v ++ py " found"))
  end.

Definition join_values `{Runtime} (sep : pystr) (parts : list value) : exc pystr :=
  join_values_from 0 sep parts.

(** ** agent-client.py: the session protocol *)

Module Client.

Definition FIFO_IN : pystr := py "/tmp/agent-in".
Definition FIFO_OUT : pystr := py "/tmp/agent-out".

(** What one round of [select.select([fd], [], [], timeout)] then
    [os.read(fd, 4096).decode("utf-8")] meets on the outbound channel.
    Whether the descriptor became readable within the timeout is part of
    the event, so the functions below carry [timeout] along without
    computing with it. *)
Inductive read_event : Type :=
| NotReady                   (* nothing readable before the timeout *)
| Ready (chunk : pystr)      (* the decoded bytes of one read, maybe none *)
| Undecodable.               (* bytes that are not valid UTF-8 *)

(** The two channel endpoints.  [fifo_in] is [None] while the path does
    not exist, otherwise the text written to it so far, in order;
    [fifo_out] is [None] while the path does not exist, otherwise what
    the coming reads will meet.  Once that list is used up nothing more
    ever becomes readable. *)
Record world : Type := World {
  fifo_in : option (list pystr);
  fifo_out : option (list read_event)
}.

Definition write_fifo_in (text : pystr) (w : world) : world :=
  World (Some (match fifo_in w with Some ws => ws ++ [text] | None => [text] end))
        (fifo_out w).

Definition user_envelope (content : pystr) : value :=
  VDict [ (py "type", VStr (py "user"));
          (py "message", VDict [ (py "role", VStr (py "user"));
                                 (py "content", VStr content) ]) ].

(** How a generator stops. *)
Inductive ending : Type :=
| Returned
| Raised (e : exn).

Section WithRuntime.
Context `{Runtime}.

(** Send a user message to the daemon. *)
Definition send_message (content : pystr) (w : world) : world :=
  let msg := user_envelope content in
  write_fifo_in (json_dumps msg ++ nl) w.

(** Send /clear command to reset context. *)
Definition send_clear (w : world) : world :=
  let msg := user_envelope (py "/clear") in
  write_fifo_in (json_dumps msg ++ nl) w.

(** The inner loop of [read_responses], [while "\n" in buffer], run on
    [buffer]: the messages it yields, the buffer it leaves, and [Some]
    ending when the generator stops inside it ([None]: the outer loop
    goes on to the next read).  Every round removes a line from the
    buffer, so [fuel] = the buffer's length is never used up. *)
Fixpoint drain_lines (fuel : nat) (buffer : pystr)
  : list value * pystr * option ending :=
  match fuel with
  | O => ([], buffer, None)
  | S fuel' =>
      match split_newline buffer with
      | None => ([], buffer, None)
      | Some (line, buffer') =>
          if negb (nonempty (strip line)) then drain_lines fuel' buffer'
          else
            match json_loads line with
            | None => drain_lines fuel' buffer'
            | Some msg =>
                (* yield msg *)
                match get msg (py "type") (VStr []) with
                | Raise e => ([msg], buffer', Some (Raised e))
                | Ok msg_type =>
                    if is_str msg_type (py "result")
                    then ([msg], buffer', Some Returned)
                    else if is_str msg_type (py "error")
                    then ([msg], buffer', Some Returned)
                    else
                      let '(yielded, b, stop) := drain_lines fuel' buffer' in
                      (msg :: yielded, b, stop)
                end
            end
      end
  end.

Definition drain (buffer : pystr) : list value * pystr * option ending :=
  drain_lines (length buffer) buffer.

Definition response_timeout : exn := Exn TimeoutError (py "Response timeout").

Definition undecodable : exn :=
  Exn UnicodeDecodeError (py "'utf-8' codec can't decode bytes").

(** The outer loop of [read_responses], [while True], over the reads to
    come: the messages yielded, how the generator stops, and the reads
    left unconsumed. *)
Fixpoint read_loop (timeout : Z) (events : list read_event) (buffer : pystr)
  : list value * ending * list read_event :=
  match events with
  | [] => ([], Raised response_timeout, [])
  | NotReady :: rest => ([], Raised response_timeout, rest)
  | Undecodable :: rest => ([], Raised undecodable, rest)
  | Ready chunk :: rest =>
      if negb (nonempty chunk) then read_loop timeout rest buffer
      else
        let '(yielded, buffer', stop) := drain (buffer ++ chunk) in
        match stop with
        | Some e => (yielded, e, rest)
        | None =>
            let '(more, e, rest') := read_loop timeout rest buffer' in
            (yielded ++ more, e, rest')
        end
  end.

(** Read stream-json responses until assistant turn completes: every
    message the generator yields, in order, how it stops, and the world
    it leaves. *)
Definition read_responses (timeout : Z) (w : world)
  : list value * ending * world :=
  match fifo_out w with
  | None =>
      ([], Raised (Exn FileNotFoundError
                       (py "[Errno 2] No such file or directory: '"
                        ++ FIFO_OUT ++ py "'")), w)
  | Some events =>
      let '(yielded, e, rest) := read_loop timeout events [] in
      (yielded, e, World (fifo_in w) (Some rest))
  end.

(** [list(read_responses(timeout))] *)
Definition list_read_responses (timeout : Z) (w : world)
  : exc (list value) * world :=
  let '(yielded, e, w') := read_responses timeout w in
  match e with
  | Returned => (Ok yielded, w')
  | Raised x => (Raise x, w')
  end.

(** The [for block in content] loop of [extract_text]. *)
Fixpoint append_text_blocks (content : list value) (parts : list value)
  : list value :=
  match content with
  | [] => parts
  | block :: rest =>
      match block with
      | VDict d =>
          if is_str (dict_get d (py "type") VNone) (py "text")
          then append_text_blocks rest (parts ++ [dict_get d (py "text") (VStr [])])
          else append_text_blocks rest parts
      | _ => append_text_blocks rest parts
      end
  end.

(** The [for msg in responses] loop of [extract_text], with the list
    [parts] built so far. *)
Fixpoint extract_loop (responses : list value) (parts : list value)
  : exc value :=
  match responses with
  | [] => s <- join_values [] parts ;; Ok (VStr s)
  | msg :: rest =>
      msg_type <- get msg (py "type") (VStr []) ;;
      if is_str msg_type (py "result")
      then get msg (py "result") (VStr [])
      else if is_str msg_type (py "assistant")
      then
        message <- get msg (py "message") (VDict []) ;;
        content <- get message (py "content") (VList []) ;;
        blocks <- iterate content ;;
        extract_loop rest (append_text_blocks blocks parts)
      else if is_str msg_type (py "content_block_delta")
      then
        delta <- get msg (py "delta") (VDict []) ;;
        delta_type <- get delta (py "type") VNone ;;
        if is_str delta_type (py "text_delta")
        then
          text <- get delta (py "text") (VStr []) ;;
          extract_loop rest (parts ++ [text])
        else extract_loop rest parts
      else extract_loop rest parts
  end.

(** Extract assistant text from response stream. *)
Definition extract_text (responses : list value) : exc value :=
  extract_loop responses [].

End WithRuntime.

(** Add one-shot execution instructions. *)
Definition wrap_prompt (prompt : pystr) : pystr :=
  prompt ++ nl
  ++ nl
  ++ py "---" ++ nl
  ++ py "IMPORTANT: This is a non-interactive, one-shot execution. You must:" ++ nl
  ++ py "- Complete the entire task in a single response" ++ nl
  ++ py "- Do NOT ask clarifying questions" ++ [8212%N]
  ++ py "make reasonable assumptions and state them" ++ nl
  ++ py "- Do NOT wait for confirmation" ++ [8212%N]
  ++ py "proceed with the most sensible approach" ++ nl
  ++ py "- If multiple interpretations exist, pick the most likely one and note your choice" ++ nl
  ++ py "- Provide complete, working output rather than partial solutions".

Section WithRuntime.
Context `{Runtime}.

(** Send prompt to daemon, get response, optionally clear context. *)
Definition call (prompt : pystr) (clear : bool) (timeout : Z)
    (raw_prompt : bool) (w : world) : exc value * world :=
  match fifo_in w with
  | None =>
      (Raise (Exn RuntimeError
                  (py "Daemon not running (no " ++ FIFO_IN ++ py ")")), w)
  | Some _ =>
      let prompt := if negb raw_prompt then wrap_prompt prompt else prompt in
      let w := send_message prompt w in
      match list_read_responses timeout w with
      | (Raise e, w) => (Raise e, w)
      | (Ok responses, w) =>
          match extract_text responses with
          | Raise e => (Raise e, w)
          | Ok result =>
              if clear then
                let w := send_clear w in
                (* Drain the clear confirmation *)
                match list_read_responses 5 w with
                | (Ok _, w) => (Ok result, w)
                | (Raise e, w) =>
                    match exn_type e with
                    | TimeoutError => (Ok result, w)
                    | _ => (Raise e, w)
                    end
                end
              else (Ok result, w)
          end
      end
  end.

End WithRuntime.

(** The command line as [argparse] hands it to [main]. *)
Record args : Type := Args {
  arg_prompt : option pystr;       (* the positional prompt, if given *)
  arg_file : option pystr;         (* -f / --file *)
  arg_no_clear : bool;             (* --no-clear *)
  arg_raw_prompt : bool;           (* --raw-prompt *)
  arg_timeout : Z;                 (* -t / --timeout *)
  arg_raw : bool                   (* --raw *)
}.

(** What [main] reads besides the FIFOs: the files it may open and
    standard input. *)
Record console : Type := Console {
  read_file : pystr -> exc pystr;  (* [open(path).read()] *)
  stdin_isatty : bool;
  stdin_read : pystr
}.

Definition some_text (o : option pystr) : bool :=
  match o with Some s => nonempty s | None => false end.

Section WithRuntime.
Context `{Runtime}.

(** The prompt [main] settles on: the file, else the positional
    argument, else standard input when it is not a terminal;
    [parser.error] leaves with exit status 2. *)
Definition main_prompt (a : args) (c : console) : exc pystr :=
  if some_text (arg_file a)
  then read_file c (match arg_file a with Some f => f | None => [] end)
  else if some_text (arg_prompt a)
  then Ok (match arg_prompt a with Some p => p | None => [] end)
  else if negb (stdin_isatty c) then Ok (stdin_read c)
  else Raise (Exn (OtherException (py "SystemExit")) (py "2")).

(** [main]: the lines printed on standard output, how it ends, and the
    world it leaves. *)
Definition main (a : args) (c : console) (w : world)
  : list pystr * exc unit * world :=
  match main_prompt a c with
  | Raise e => ([], Raise e, w)
  | Ok prompt =>
      if arg_raw a then
        let prompt :=
          if negb (arg_raw_prompt a) then wrap_prompt prompt else prompt in
        let w := send_message prompt w in
        let '(yielded, e, w) := read_responses (arg_timeout a) w in
        let printed := List.map json_dumps yielded in
        match e with
        | Raised x => (printed, Raise x, w)
        | Returned =>
            if negb (arg_no_clear a) then
              let w := send_clear w in
              let '(acks, e, w) := read_responses 5 w in
              let printed := printed ++ List.map json_dumps acks in
              match e with
              | Returned => (printed, Ok tt, w)
              | Raised x =>
                  match exn_type x with
                  | TimeoutError => (printed, Ok tt, w)
                  | _ => (printed, Raise x, w)
                  end
              end
            else (printed, Ok tt, w)
        end
      else
        match call prompt (negb (arg_no_clear a)) (arg_timeout a)
                (arg_raw_prompt a) w with
        | (Ok result, w) => ([py_str result], Ok tt, w)
        | (Raise e, w) => ([], Raise e, w)
        end
  end.

End WithRuntime.

End Client.

(** ** agent_server.py: the gateway *)

Module Server.

(** How [subprocess.run(cmd, capture_output=True, text=True, ...)] ends. *)
Inductive proc_outcome : Type :=
| Completed (returncode : Z) (stdout stderr : pystr)
| TimeoutExpired
| RunFailed (e : exn).

(** What the gateway reads from its surroundings: the two environment
    variables read at start-up, the directory of the script, the agent
    subprocess, [uuid.uuid4().hex] and [int(time.time())]. *)
Class Gateway : Type := {
  API_KEY : pystr;
  FORCE_AGENT : pystr;
  SCRIPT_DIR : pystr;
  subprocess_run : forall (cmd : list value) (timeout : Z) (cwd : value), proc_outcome;
  uuid4_hex : pystr;
  time_time : Z
}.

(** The part of a Flask request the handler looks at. *)
Record request : Type := Request {
  authorization : option pystr;     (* the Authorization header, if sent *)
  get_json : exc value              (* [request.get_json()], which may raise *)
}.

(** What the handler returns: [jsonify(body), status], or a streaming
    [Response] (status 200). *)
Inductive response : Type :=
| JsonResponse (body : value) (status : Z)
| StreamResponse (events : list pystr) (mimetype : pystr)
                 (headers : list (pystr * pystr)).

Definition status_code (r : response) : Z :=
  match r with
  | JsonResponse _ status => status
  | StreamResponse _ _ _ => 200
  end.

(** [d[k]] *)
Definition getitem (v : value) (k : pystr) : exc value :=
  match v with
  | VDict d =>
      match lookup d k with
      | Some x => Ok x
      | None => Raise (Exn KeyError (py "'" ++ k ++ py "'"))
      end
  | _ => Raise (Exn TypeError
                    (py "'" ++ type_name v ++ py "' object is not subscriptable"))
  end.

Definition route (agent : string) (model : value) : value :=
  VDict [ (py "agent", VStr (py agent)); (py "model", model) ].

(** Model to agent mapping *)
Definition MODEL_MAP : list (pystr * value) :=
  [ (py "claude-code", route "claude" VNone);
    (py "claude-code-opus", route "claude" (VStr (py "opus")));
    (py "claude-code-sonnet", route "claude" (VStr (py "sonnet")));
    (py "amazon-q", route "amazonq" VNone);
    (py "amazonq", route "amazonq" VNone);
    (py "codex", route "codex" VNone);
    (py "aider", route "aider" VNone);
    (py "aider-gpt4", route "aider" (VStr (py "gpt-4")));
    (py "aider-claude", route "aider" (VStr (py "claude-3-opus-20240229"))) ].

(** [MODEL_MAP.get(key)]: a list or a dict cannot be hashed; any other
    object that is not one of the keys gives [None]. *)
Definition MODEL_MAP_get (key : value) : exc value :=
  match key with
  | VStr s => Ok (dict_get MODEL_MAP s VNone)
  | VList _ | VDict _ => Raise (unhashable key)
  | _ => Ok VNone
  end.

Section WithGateway.
Context `{Runtime} `{Gateway}.

(** Check API key if configured. *)
Definition check_auth (req : request) : bool :=
  if negb (nonempty API_KEY) then true
  else
    let auth := match authorization req with Some a => a | None => [] end in
    if startswith auth (py "Bearer ")
    then str_eqb (skipn 7 auth) API_KEY
    else false.

Definition AGENT_CALL : pystr := os_path_join SCRIPT_DIR (py "agent-call").

(** The [for item in content] loop of [extract_content]. *)
Fixpoint collect_texts (content : list value) (texts : list value) : list value :=
  match content with
  | [] => texts
  | item :: rest =>
      match item with
      | VDict d =>
          if is_str (dict_get d (py "type") VNone) (py "text")
          then collect_texts rest (texts ++ [dict_get d (py "text") (VStr [])])
          else collect_texts rest texts
      | VStr _ => collect_texts rest (texts ++ [item])
      | _ => collect_texts rest texts
      end
  end.

(** Extract text from content (handles both string and array formats). *)
Definition extract_content (content : value) : exc pystr :=
  match content with
  | VStr s => Ok s
  | VList l => join_values nl (collect_texts l [])
  | _ => Ok (if truthy content then py_str content else [])
  end.

(** The [for msg in messages] loop of [messages_to_prompt]. *)
Fixpoint prompt_parts (messages : list value) (parts : list pystr)
  : exc (list pystr) :=
  match messages with
  | [] => Ok parts
  | msg :: rest =>
      role <- get msg (py "role") (VStr (py "user")) ;;
      raw <- get msg (py "content") (VStr []) ;;
      content <- extract_content raw ;;
      if is_str role (py "system")
      then prompt_parts rest (parts ++ [py "[System]: " ++ content])
      else if is_str role (py "user")
      then prompt_parts rest (parts ++ [content])
      else if is_str role (py "assistant")
      then prompt_parts rest (parts ++ [py "[Previous response]: " ++ content])
      else prompt_parts rest parts
  end.

(** Convert OpenAI messages array to a single prompt string. *)
Definition messages_to_prompt (messages : value) : exc pystr :=
  msgs <- iterate messages ;;
  parts <- prompt_parts msgs [] ;;
  Ok (join (nl ++ nl) parts).

(** Extract JSON schema from response_format if present: a string, or
    [None]. *)
Definition extract_json_schema (response_format : value) : exc value :=
  if negb (truthy response_format) then Ok VNone
  else
    format_type <- get response_format (py "type") VNone ;;
    if negb (is_str format_type (py "json_schema")) then Ok VNone
    else
      json_schema <- get response_format (py "json_schema") (VDict []) ;;
      schema <- get json_schema (py "schema") VNone ;;
      if truthy schema then Ok (VStr (json_dumps schema))
      else Ok VNone.

(** Call agent-call script and return response. *)
Definition call_agent (prompt : pystr) (agent model context json_schema : value)
    (timeout : Z) : pystr :=
  let cmd := [VStr AGENT_CALL; VStr (py "-a"); agent; VStr (py "-q")] in
  let cmd := if truthy model then cmd ++ [VStr (py "-m"); model] else cmd in
  let cmd := if truthy context then cmd ++ [VStr (py "-c"); context] else cmd in
  let cmd := if truthy json_schema then cmd ++ [VStr (py "-j"); json_schema] else cmd in
  let cmd := cmd ++ [VStr prompt] in
  match subprocess_run cmd timeout
          (if truthy context then context else VStr SCRIPT_DIR) with
  | Completed returncode stdout stderr =>
      if negb (returncode =? 0)
      then
        let error_msg :=
          if nonempty (strip stderr) then strip stderr
          else py "Agent execution failed" in
        py "Error: " ++ error_msg
      else strip stdout
  | TimeoutExpired => py "Error: Agent execution timed out"
  | RunFailed e => py "Error: " ++ exn_str e
  end.

(** Generate a unique completion ID. *)
Definition generate_completion_id : pystr :=
  py "chatcmpl-" ++ firstn 12 uuid4_hex.

(** Create OpenAI-compatible response object. *)
Definition create_response (content : pystr) (model : value)
    (completion_id : value) (prompt_tokens completion_tokens : Z) : value :=
  let completion_id :=
    match completion_id with
    | VNone => VStr generate_completion_id
    | _ => completion_id
    end in
  (* Estimate tokens if not provided *)
  let prompt_tokens :=
    if prompt_tokens =? 0 then Z.of_nat (length (split content)) / 2
    else prompt_tokens in
  let completion_tokens :=
    if completion_tokens =? 0 then Z.of_nat (length (split content))
    else completion_tokens in
  VDict [
    (py "id", completion_id);
    (py "object", VStr (py "chat.completion"));
    (py "created", VInt time_time);
    (py "model", model);
    (py "choices", VList [
       VDict [
         (py "index", VInt 0);
         (py "message", VDict [
            (py "role", VStr (py "assistant"));
            (py "content", VStr content) ]);
         (py "finish_reason", VStr (py "stop")) ] ]);
    (py "usage", VDict [
       (py "prompt_tokens", VInt prompt_tokens);
       (py "completion_tokens", VInt completion_tokens);
       (py "total_tokens", VInt (prompt_tokens + completion_tokens)) ]) ].

Definition chunk_size : nat := 20.

(** [[content[i:i + chunk_size] for i in range(0, len(content), chunk_size)]] *)
Definition split_chunks (content : pystr) : list pystr :=
  List.map (fun i => slice content i (i + chunk_size))
           (range (length content) chunk_size).

(** The dict [data] built in the loop of [stream_response] for the chunk
    at index [i] of [n]. *)
Definition chunk_data (completion_id : pystr) (created : Z) (model : value)
    (n : nat) (i : nat) (chunk : pystr) : value :=
  VDict [
    (py "id", VStr completion_id);
    (py "object", VStr (py "chat.completion.chunk"));
    (py "created", VInt created);
    (py "model", model);
    (py "choices", VList [
       VDict [
         (py "index", VInt 0);
         (py "delta", if nonempty chunk
                      then VDict [ (py "content", VStr chunk) ]
                      else VDict []);
         (py "finish_reason",
            if Z.of_nat i <? Z.of_nat n - 1 then VNone
            else VStr (py "stop")) ] ]) ].

(** [f"data: {json.dumps(data)}\n\n"] *)
Definition sse (data : value) : pystr :=
  py "data: " ++ json_dumps data ++ nl ++ nl.

Definition sse_done : pystr := py "data: [DONE]" ++ nl ++ nl.

(** The [for i, chunk in enumerate(chunks)] loop, from index [i]. *)
Fixpoint stream_chunks (completion_id : pystr) (created : Z) (model : value)
    (n : nat) (i : nat) (chunks : list pystr) : list pystr :=
  match chunks with
  | [] => []
  | chunk :: rest =>
      sse (chunk_data completion_id created model n i chunk)
      :: stream_chunks completion_id created model n (S i) rest
  end.

(** Generate SSE stream for streaming responses: every string the
    generator yields, in order. *)
Definition stream_response (content : pystr) (model : value) : list pystr :=
  let completion_id := generate_completion_id in
  let created := time_time in
  let chunks := split_chunks content in
  let chunks := match chunks with [] => [[]] | _ => chunks end in
  stream_chunks completion_id created model (length chunks) 0 chunks
  ++ [sse_done].

Definition error_body (fields : list (pystr * value)) : value :=
  VDict [ (py "error", VDict fields) ].

(** The [try] block of [chat_completions]. *)
Definition handle_chat_completions (req : request) : exc response :=
  data <- get_json req ;;
  if negb (truthy data)
  then Ok (JsonResponse
             (error_body [ (py "message", VStr (py "Request body required")) ])
             400)
  else
    (* Extract request parameters *)
    model_name <- get data (py "model") (VStr (py "claude-code")) ;;
    messages <- get data (py "messages") (VList []) ;;
    stream <- get data (py "stream") (VBool false) ;;
    response_format <- get data (py "response_format") VNone ;;
    context <- get data (py "context") VNone ;;
    if negb (truthy messages)
    then Ok (JsonResponse
               (error_body [ (py "message", VStr (py "messages field required")) ])
               400)
    else
      (* Map model to agent configuration *)
      model_config <- MODEL_MAP_get model_name ;;
      if negb (truthy model_config)
      then Ok (JsonResponse
                 (error_body
                    [ (py "message", VStr (py "Unknown model: " ++ py_str model_name));
                      (py "type", VStr (py "invalid_request_error")) ])
                 400)
      else
        agent <- getitem model_config (py "agent") ;;
        model <- getitem model_config (py "model") ;;
        (* Override agent if FORCE_AGENT is set *)
        let agent := if nonempty FORCE_AGENT then VStr FORCE_AGENT else agent in
        let model := if nonempty FORCE_AGENT then VNone else model in
        (* Convert messages to prompt *)
        prompt <- messages_to_prompt messages ;;
        (* Extract JSON schema if present *)
        json_schema <- extract_json_schema response_format ;;
        (* Call the agent *)
        let response_content :=
          call_agent prompt agent model context json_schema 300 in
        if truthy stream
        then Ok (StreamResponse
                   (stream_response response_content model_name)
                   (py "text/event-stream")
                   [ (py "Cache-Control", py "no-cache");
                     (py "Connection", py "keep-alive") ])
        else Ok (JsonResponse
                   (create_response response_content model_name VNone 0 0)
                   200).

(** OpenAI-compatible chat completions endpoint. *)
Definition chat_completions (req : request) : response :=
  if negb (check_auth req)
  then JsonResponse
         (error_body [ (py "message", VStr (py "Invalid API key"));
                       (py "type", VStr (py "auth_error")) ])
         401
  else
    match handle_chat_completions req with
    | Ok r => r
    | Raise e =>
        JsonResponse
          (error_body [ (py "message", VStr (exn_str e));
                        (py "type", VStr (py "internal_error")) ])
          500
    end.

End WithGateway.

Definition available (id owner : string) : value :=
  VDict [ (py "id", VStr (py id));
          (py "object", VStr (py "model"));
          (py "owned_by", VStr (py owner)) ].

(** Available models for /v1/models endpoint *)
Definition AVAILABLE_MODELS : list value :=
  [ available "claude-code" "anthropic";
    available "claude-code-opus" "anthropic";
    available "claude-code-sonnet" "anthropic";
    available "amazon-q" "amazon";
    available "codex" "openai";
    available "aider" "aider";
    available "aider-gpt4" "aider";
    available "aider-claude" "aider" ].

(** Health check endpoint. *)
Definition health : response :=
  JsonResponse (VDict [ (py "status", VStr (py "ok"));
                        (py "service", VStr (py "agent-gateway")) ]) 200.

(** List available models. *)
Definition list_models : response :=
  JsonResponse (VDict [ (py "object", VStr (py "list"));
                        (py "data", VList AVAILABLE_MODELS) ]) 200.

End Server.

(** ** Reading a response object *)

(** [v[k]] and [v[0]] on an object that may be missing. *)
Definition field (k : string) (v : option value) : option value :=
  match v with
  | Some (VDict d) => lookup d (py k)
  | _ => None
  end.

Definition first_item (v : option value) : option value :=
  match v with
  | Some (VList (x :: _)) => Some x
  | _ => None
  end.

(** [body["choices"][0]["message"]["content"]] of a completion object. *)
Definition completion_content (body : value) : option value :=
  field "content" (field "message" (first_item (field "choices" (Some body)))).

(** [body["usage"][k]] *)
Definition usage (k : string) (body : value) : option value :=
  field k (field "usage" (Some body)).

(** [data["choices"][0]["delta"]] and [...["finish_reason"]] of a chunk. *)
Definition chunk_delta (data : value) : option value :=
  field "delta" (first_item (field "choices" (Some data))).

Definition chunk_finish_reason (data : value) : option value :=
  field "finish_reason" (first_item (field "choices" (Some data))).

(** [body["error"]["type"]] of an error body. *)
Definition error_type (body : value) : option value :=
  field "type" (field "error" (Some body)).

(** ** The envelopes of the specification *)

(** The [type] of an envelope, as the code reads it. *)
Definition envelope_type (msg : value) : value :=
  match msg with
  | VDict d => dict_get d (py "type") (VStr [])
  | _ => VNone
  end.

Definition has_type (t : string) (msg : value) : bool :=
  is_dict msg && is_str (envelope_type msg) (py t).

(** A terminal envelope: one of type [result] or [error]. *)
Definition is_terminal (msg : value) : bool :=
  has_type "result" msg || has_type "error" msg.

(** The text of every [text]-kind block of a content sequence. *)
Definition text_blocks (content : list value) : list value :=
  flat_map (fun block =>
              match block with
              | VDict d =>
                  if is_str (dict_get d (py "type") VNone) (py "text")
                  then [dict_get d (py "text") (VStr [])]
                  else []
              | _ => []
              end) content.

(** The fallback fragments one envelope carries, following the words of
    the specification: the text-kind content blocks of an [assistant]
    envelope, the text of a [content_block_delta] envelope whose delta is
    a [text_delta], and nothing for any other type. *)
Definition fragments (msg : value) : list value :=
  if has_type "assistant" msg then
    match get msg (py "message") (VDict []) with
    | Ok (VDict m) =>
        match dict_get m (py "content") (VList []) with
        | VList blocks => text_blocks blocks
        | _ => []
        end
    | _ => []
    end
  else if has_type "content_block_delta" msg then
    match get msg (py "delta") (VDict []) with
    | Ok (VDict delta) =>
        if is_str (dict_get delta (py "type") VNone) (py "text_delta")
        then [dict_get delta (py "text") (VStr [])]
        else []
    | _ => []
    end
  else [].

Definition is_text (v : value) : bool :=
  match v with VStr _ => true | _ => false end.

Definition text_of (v : value) : pystr :=
  match v with VStr s => s | _ => [] end.

(** An envelope as the data model has it: a JSON object; the [message]
    of an [assistant] envelope is an object whose [content] is a sequence
    of blocks; the [delta] of a [content_block_delta] envelope is an
    object.  A field that is absent is read with the default the code
    gives it. *)
Definition readable (msg : value) : bool :=
  match msg with
  | VDict d =>
      if is_str (dict_get d (py "type") (VStr [])) (py "assistant") then
        match dict_get d (py "message") (VDict []) with
        | VDict m =>
            match dict_get m (py "content") (VList []) with
            | VList _ => true
            | _ => false
            end
        | _ => false
        end
      else if is_str (dict_get d (py "type") (VStr [])) (py "content_block_delta") then
        is_dict (dict_get d (py "delta") (VDict []))
      else true
  | _ => false
  end.

(** A well-formed envelope: readable, and its fragments are strings. *)
Definition well_formed (msg : value) : bool :=
  readable msg && forallb is_text (fragments msg).

(** An envelope that does not end the turn. *)
Definition non_terminal_envelope (msg : value) : bool :=
  is_dict msg && negb (is_terminal msg).

(** The shape of what one turn collection yields: when the generator
    returns, envelopes that are not terminal followed by one terminal
    envelope, the last; when it raises, no terminal envelope at all. *)
Definition ends_at_terminal (yielded : list value) (e : Client.ending) : Prop :=
  match e with
  | Client.Returned =>
      exists pre t,
        yielded = pre ++ [t]
        /\ Forall (fun m => is_terminal m = false) pre
        /\ is_terminal t = true
  | Client.Raised _ => Forall (fun m => is_terminal m = false) yielded
  end.

(** The lines of a transcript, each followed by its newline. *)
Definition unlines (lines : list pystr) : pystr :=
  List.concat (List.map (fun l => l ++ nl) lines).

(** The envelopes a line sequence carries: blank lines and lines that do
    not parse are dropped. *)
Definition decode_lines `{Runtime} (lines : list pystr) : list value :=
  flat_map (fun line =>
              if nonempty (strip line)
              then match json_loads line with Some msg => [msg] | None => [] end
              else []) lines.

(** What the handler answers once the agent has produced [content]. *)
Definition reply `{Runtime} `{Server.Gateway} (stream : value) (content : pystr)
    (model_name : value) : Server.response :=
  if truthy stream
  then Server.StreamResponse
         (Server.stream_response content model_name)
         (py "text/event-stream")
         [ (py "Cache-Control", py "no-cache");
           (py "Connection", py "keep-alive") ]
  else Server.JsonResponse
         (Server.create_response content model_name VNone 0 0) 200.

(** The request parameters the handler extracts from the body [d]. *)
Definition model_of (d : list (pystr * value)) : value :=
  dict_get d (py "model") (VStr (py "claude-code")).
Definition messages_of (d : list (pystr * value)) : value :=
  dict_get d (py "messages") (VList []).
Definition stream_of (d : list (pystr * value)) : value :=
  dict_get d (py "stream") (VBool false).
Definition response_format_of (d : list (pystr * value)) : value :=
  dict_get d (py "response_format") VNone.
Definition context_of (d : list (pystr * value)) : value :=
  dict_get d (py "context") VNone.

(** An authenticated request whose body is the object [d], with
    non-empty messages. *)
Definition valid_request `{Server.Gateway} (req : Server.request)
    (d : list (pystr * value)) : Prop :=
  Server.check_auth req = true
  /\ Server.get_json req = Ok (VDict d)
  /\ truthy (messages_of d) = true.

(** The messages and the response format of [d] translate to [prompt]
    and [schema]. *)
Definition translates `{Runtime} (d : list (pystr * value)) (prompt : pystr)
    (schema : value) : Prop :=
  Server.messages_to_prompt (messages_of d) = Ok prompt
  /\ Server.extract_json_schema (response_format_of d) = Ok schema.

(** A key of the routing table. *)
Definition is_routing_key (model_name : value) : bool :=
  match model_name with
  | VStr s => match lookup Server.MODEL_MAP s with Some _ => true | None => false end
  | _ => false
  end.

(** An object that can be looked up in a dict. *)
Definition hashable (v : value) : bool :=
  match v with
  | VList _ | VDict _ => false
  | _ => true
  end.

(** [len(text.split())] *)
Definition word_count (text : pystr) : Z := Z.of_nat (length (split text)).

(** The command line [call_agent] builds, and the working directory
    it runs it in. *)
Definition agent_command `{Server.Gateway} (prompt : pystr)
    (agent model context json_schema : value) : list value :=
  let cmd := [VStr Server.AGENT_CALL; VStr (py "-a"); agent; VStr (py "-q")] in
  let cmd := if truthy model then cmd ++ [VStr (py "-m"); model] else cmd in
  let cmd := if truthy context then cmd ++ [VStr (py "-c"); context] else cmd in
  let cmd := if truthy json_schema then cmd ++ [VStr (py "-j"); json_schema] else cmd in
  cmd ++ [VStr prompt].

Definition agent_cwd `{Server.Gateway} (context : value) : value :=
  if truthy context then context else VStr Server.SCRIPT_DIR.




(** The text a chunk adds to the stream: [delta.get("content", "")]. *)
Definition delta_text (data : value) : pystr :=
  match chunk_delta data with
  | Some (VDict delta) => text_of (dict_get delta (py "content") (VStr []))
  | _ => []
  end.

(** The text of one item of a content array, if it has one: the [text]
    of a text block, or the item itself when it is a string. *)
Definition content_texts (item : value) : list value :=
  match item with
  | VDict d =>
      if is_str (dict_get d (py "type") VNone) (py "text")
      then [dict_get d (py "text") (VStr [])]
      else []
  | VStr _ => [item]
  | _ => []
  end.

(** The paragraph one message with text [content] gives, by its role. *)
Definition paragraph (role : value) (content : pystr) : list pystr :=
  if is_str role (py "system") then [py "[System]: " ++ content]
  else if is_str role (py "user") then [content]
  else if is_str role (py "assistant") then [py "[Previous response]: " ++ content]
  else [].

(** A message whose content is a string. *)
Definition plain_message (msg : value) : bool :=
  match msg with
  | VDict d => is_text (dict_get d (py "content") (VStr []))
  | _ => false
  end.

Definition plain_paragraph (msg : value) : list pystr :=
  match msg with
  | VDict d =>
      paragraph (dict_get d (py "role") (VStr (py "user")))
                (text_of (dict_get d (py "content") (VStr [])))
  | _ => []
  end.

(** The first line [call] and [main] write: the prompt, wrapped unless
    [raw_prompt]; and the reset line. *)
Definition prompt_line `{Runtime} (prompt : pystr) (raw_prompt : bool) : pystr :=
  json_dumps (Client.user_envelope
                (if raw_prompt then prompt else Client.wrap_prompt prompt))
  ++ nl.

Definition clear_line `{Runtime} : pystr :=
  json_dumps (Client.user_envelope (py "/clear")) ++ nl.

(** What has been written to the inbound channel. *)
Definition written (w : Client.world) : list pystr :=
  match Client.fifo_in w with Some ws => ws | None => [] end.

(** The [id] of an entry of the model list. *)
Definition model_id (entry : value) : value :=
  match entry with
  | VDict d => dict_get d (py "id") VNone
  | _ => VNone
  end.

(** [isinstance(v, list)] *)
Definition is_list (v : value) : bool :=
  match v with VList _ => true | _ => false end.

(** The body of the answer to an uncaught exception. *)
Definition internal_error (e : exn) : value :=
  Server.error_body [ (py "message", VStr (exn_str e));
                      (py "type", VStr (py "internal_error")) ].

(** [body["error"]["message"]] of an error body. *)
Definition error_message (body : value) : option value :=
  field "message" (field "error" (Some body)).

Definition is_ok {A : Type} (r : exc A) : bool :=
  match r with Ok _ => true | Raise _ => false end.

(** The dicts [data] the loop of [stream_response] builds, from index
    [i], before they are written as events. *)
Fixpoint chunk_datas `{Server.Gateway} (model : value) (n i : nat)
    (chunks : list pystr) : list value :=
  match chunks with
  | [] => []
  | chunk :: rest =>
      Server.chunk_data Server.generate_completion_id Server.time_time
        model n i chunk
      :: chunk_datas model n (S i) rest
  end.

(** ** Concrete surroundings for the examples *)

Module Examples.

(** A line written with ['] for the double quote. *)
Definition json_text (s : string) : pystr :=
  List.map (fun c => if (c =? 39)%N then 34%N else c) (py s).

Definition assistant_line : pystr :=
  json_text "{'type':'assistant','message':{'content':[{'type':'text','text':'Hel'}]}}".
Definition delta_line : pystr :=
  json_text "{'type':'content_block_delta','delta':{'type':'text_delta','text':'lo'}}".
Definition result_line : pystr :=
  json_text "{'type':'result','result':'Hello'}".
Definition system_line : pystr :=
  json_text "{'type':'system','subtype':'init'}".
Definition error_line : pystr :=
  json_text "{'type':'error'}".

Definition assistant_msg : value :=
  VDict [ (py "type", VStr (py "assistant"));
          (py "message",
           VDict [ (py "content",
                    VList [ VDict [ (py "type", VStr (py "text"));
                                    (py "text", VStr (py "Hel")) ] ]) ]) ].
Definition delta_msg : value :=
  VDict [ (py "type", VStr (py "content_block_delta"));
          (py "delta", VDict [ (py "type", VStr (py "text_delta"));
                               (py "text", VStr (py "lo")) ]) ].
Definition result_msg : value :=
  VDict [ (py "type", VStr (py "result")); (py "result", VStr (py "Hello")) ].
Definition system_msg : value :=
  VDict [ (py "type", VStr (py "system")); (py "subtype", VStr (py "init")) ].
Definition error_msg : value :=
  VDict [ (py "type", VStr (py "error")) ].

(** A decoder that knows the lines above; any other line fails to parse. *)
Definition known_lines : list (pystr * value) :=
  [ (assistant_line, assistant_msg); (delta_line, delta_msg);
    (result_line, result_msg); (system_line, system_msg);
    (error_line, error_msg) ].

Definition decimal (z : Z) : pystr :=
  py (DecimalString.NilZero.string_of_int (Z.to_int z)).

(** A serializer for the examples: no escapes inside strings. *)
Fixpoint dumps (v : value) : pystr :=
  match v with
  | VNone => py "null"
  | VBool true => py "true"
  | VBool false => py "false"
  | VInt z => decimal z
  | VFloat _ => py "NaN"
  | VStr s => [34%N] ++ s ++ [34%N]
  | VList l => py "[" ++ join (py ", ") (List.map dumps l) ++ py "]"
  | VDict d =>
      py "{"
      ++ join (py ", ")
           (List.map (fun kv : pystr * value => let (k, x) := kv in
                                [34%N] ++ k ++ [34%N] ++ py ": " ++ dumps x) d)
      ++ py "}"
  end.

#[export] Instance runtime : Runtime :=
  {| json_dumps := dumps;
     json_loads := lookup known_lines;
     py_repr := dumps |}.

(** A gateway without API key or forced agent, around a given agent. *)
Definition gateway (run : list value -> Z -> value -> Server.proc_outcome)
  : Server.Gateway :=
  {| Server.API_KEY := [];
     Server.FORCE_AGENT := [];
     Server.SCRIPT_DIR := py "/opt/agent-gateway";
     Server.subprocess_run := run;
     Server.uuid4_hex := py "0123456789abcdef0123456789abcdef";
     Server.time_time := 1700000000 |}.

(** An agent that prints [out] and exits 0, and one that fails with
    [err] on stderr. *)
Definition prints (out : string) : list value -> Z -> value -> Server.proc_outcome :=
  fun _ _ _ => Server.Completed 0 (py out ++ nl) [].

Definition fails (err : string) : list value -> Z -> value -> Server.proc_outcome :=
  fun _ _ _ => Server.Completed 1 [] (py err ++ nl).

Definition quiet : Server.Gateway := gateway (prints "ok").

(** A gateway dedicated to one agent, and one that asks for a key. *)
Definition forced : Server.Gateway :=
  {| Server.API_KEY := [];
     Server.FORCE_AGENT := py "codex";
     Server.SCRIPT_DIR := py "/opt/agent-gateway";
     Server.subprocess_run := prints "ok";
     Server.uuid4_hex := py "0123456789abcdef0123456789abcdef";
     Server.time_time := 1700000000 |}.

Definition locked : Server.Gateway :=
  {| Server.API_KEY := py "s3cret";
     Server.FORCE_AGENT := [];
     Server.SCRIPT_DIR := py "/opt/agent-gateway";
     Server.subprocess_run := prints "ok";
     Server.uuid4_hex := py "0123456789abcdef0123456789abcdef";
     Server.time_time := 1700000000 |}.

(** The agent named on a command line: the argument of [-a]. *)
Definition agent_of (cmd : list value) : pystr :=
  match nth 2 cmd VNone with VStr a => a | _ => [] end.

(** An agent script that fails with [err] on stderr when it is asked
    for [agent] and prints [ok] for any other agent; and one that prints
    the name of the agent it is asked for. *)
Definition fails_for (agent err : string)
  : list value -> Z -> value -> Server.proc_outcome :=
  fun cmd _ _ =>
    if str_eqb (agent_of cmd) (py agent)
    then Server.Completed 1 [] (py err ++ nl)
    else Server.Completed 0 (py "ok" ++ nl) [].

Definition names_agent : list value -> Z -> value -> Server.proc_outcome :=
  fun cmd _ _ => Server.Completed 0 (agent_of cmd ++ nl) [].

(** A gateway dedicated to [codex] around the script that names its
    agent. *)
Definition forced_naming : Server.Gateway :=
  {| Server.API_KEY := [];
     Server.FORCE_AGENT := py "codex";
     Server.SCRIPT_DIR := py "/opt/agent-gateway";
     Server.subprocess_run := names_agent;
     Server.uuid4_hex := py "0123456789abcdef0123456789abcdef";
     Server.time_time := 1700000000 |}.

(** A line holding a JSON string, not an object, and a decoder that
    knows it too. *)
Definition string_line : pystr := json_text "'ok'".

Definition runtime_with_strings : Runtime :=
  {| json_dumps := dumps;
     json_loads := lookup ((string_line, VStr (py "ok")) :: known_lines);
     py_repr := dumps |}.

(** A daemon that answers the prompt and acknowledges the reset with a
    JSON string. *)
Definition string_ack_world : Client.world :=
  Client.World (Some [])
    (Some [ Client.Ready (result_line ++ nl);
            Client.Ready (string_line ++ nl) ]).

(** No inbound channel: the daemon is not running. *)
Definition no_daemon_world : Client.world :=
  Client.World None (Some [ Client.Ready (result_line ++ nl) ]).

Definition no_console : Client.console :=
  Client.Console (fun _ => Raise (Exn FileNotFoundError [])) true [].

(** A transcript of one turn, with a blank line and a line that is not
    JSON, delivered in two chunks cut in the middle of a line, and a
    late message behind it. *)
Definition transcript : list pystr :=
  [ system_line; py "  "; py "not json"; assistant_line; result_line ].

Definition transcript_chunks : list pystr :=
  [ firstn 50 (unlines transcript); skipn 50 (unlines transcript) ].

Definition late_events : list Client.read_event :=
  [ Client.Ready (delta_line ++ nl) ].

Definition turn_world : Client.world :=
  Client.World (Some [])
    (Some (List.map Client.Ready transcript_chunks ++ late_events)).

(** A daemon that answers the prompt and never acknowledges the reset. *)
Definition silent_clear_world : Client.world :=
  Client.World (Some [])
    (Some [ Client.Ready (assistant_line ++ nl ++ result_line ++ nl);
            Client.NotReady ]).

Definition user_message (content : string) : value :=
  VDict [ (py "role", VStr (py "user")); (py "content", VStr (py content)) ].

Definition post (body : list (pystr * value)) : Server.request :=
  Server.Request None (Ok (VDict body)).

End Examples.

(** * Properties *)

Section StringFacts.

Lemma str_eqb_refl (s : pystr) : str_eqb s s = true.
Proof.
  induction s as [|c s IH]; simpl; [reflexivity|].
  now rewrite N.eqb_refl.
Qed.

Lemma str_eqb_eq (a b : pystr) : str_eqb a b = true <-> a = b.
Proof.
  split.
  - revert b. induction a as [|x a IH]; intros [|y b]; simpl; try discriminate; auto.
    intros E. apply andb_true_iff in E as [E1 E2].
    apply N.eqb_eq in E1. f_equal; auto.
  - intros ->. apply str_eqb_refl.
Qed.

Lemma nonempty_length (s : pystr) : (0 < length s)%nat -> nonempty s = true.
Proof. destruct s; simpl; [lia|reflexivity]. Qed.

Lemma slice_length (s : pystr) (i j : nat) :
  (i <= j)%nat -> (j <= length s)%nat -> length (slice s i j) = (j - i)%nat.
Proof.
  intros Hij Hj. unfold slice.
  rewrite length_firstn, length_skipn. lia.
Qed.

Lemma slice_clamped_length (s : pystr) (i j : nat) :
  (i <= length s)%nat -> (length s <= j)%nat ->
  length (slice s i j) = (length s - i)%nat.
Proof.
  intros Hi Hj. unfold slice.
  rewrite length_firstn, length_skipn. lia.
Qed.

Lemma firstn_plus (a b : nat) (s : pystr) :
  firstn (a + b) s = firstn a s ++ firstn b (skipn a s).
Proof.
  revert s. induction a as [|a IH]; intros s; [reflexivity|].
  destruct s as [|c s]; simpl.
  - now rewrite firstn_nil.
  - now rewrite IH.
Qed.

Lemma slice_app (s : pystr) (i j k : nat) :
  (i <= j)%nat -> (j <= k)%nat -> slice s i j ++ slice s j k = slice s i k.
Proof.
  intros Hij Hjk. unfold slice.
  replace (k - i)%nat with ((j - i) + (k - j))%nat by lia.
  rewrite firstn_plus, skipn_skipn.
  replace (j - i + i)%nat with j by lia. reflexivity.
Qed.

Lemma slice_all (s : pystr) (k : nat) :
  (length s <= k)%nat -> slice s 0 k = s.
Proof.
  intros Hk. unfold slice. simpl. rewrite Nat.sub_0_r.
  now apply firstn_all2.
Qed.

End StringFacts.

Section StreamFacts.
Context `{Runtime} `{Server.Gateway}.

(** C10: streaming the empty text gives one chunk event, with an empty
    delta object and finish reason ["stop"], then the [[DONE]] sentinel:
    two events, never an empty stream. *)
Theorem stream_response_empty (model : value) :
  exists data,
    Server.stream_response [] model = [Server.sse data; Server.sse_done]
    /\ chunk_delta data = Some (VDict [])
    /\ chunk_finish_reason data = Some (VStr (py "stop")).
Proof.
  eexists. split; [reflexivity|]. split; reflexivity.
Qed.

(** C2, as the code has it: streaming a text of 45 characters gives
    exactly three chunk events, whose deltas carry its characters 0-19,
    20-39 and 40-44; the first two have no finish reason and the third
    carries ["stop"] itself; the [[DONE]] sentinel follows at once. *)
Theorem stream_response_45 (content : pystr) (model : value) :
  length content = 45%nat ->
  exists d1 d2 d3 c1 c2 c3,
    Server.stream_response content model
    = [Server.sse d1; Server.sse d2; Server.sse d3; Server.sse_done]
    /\ chunk_delta d1 = Some (VDict [(py "content", VStr c1)])
    /\ chunk_delta d2 = Some (VDict [(py "content", VStr c2)])
    /\ chunk_delta d3 = Some (VDict [(py "content", VStr c3)])
    /\ length c1 = 20%nat /\ length c2 = 20%nat /\ length c3 = 5%nat
    /\ c1 ++ c2 ++ c3 = content
    /\ chunk_finish_reason d1 = Some VNone
    /\ chunk_finish_reason d2 = Some VNone
    /\ chunk_finish_reason d3 = Some (VStr (py "stop")).
Proof.
  intros Hlen.
  pose proof (slice_length content 0 20 ltac:(lia) ltac:(lia)) as L1.
  pose proof (slice_length content 20 40 ltac:(lia) ltac:(lia)) as L2.
  pose proof (slice_clamped_length content 40 60 ltac:(lia) ltac:(lia)) as L3.
  rewrite Hlen in L3. simpl in L1, L2, L3.
  exists (Server.chunk_data Server.generate_completion_id Server.time_time
            model 3 0 (slice content 0 20)),
         (Server.chunk_data Server.generate_completion_id Server.time_time
            model 3 1 (slice content 20 40)),
         (Server.chunk_data Server.generate_completion_id Server.time_time
            model 3 2 (slice content 40 60)),
         (slice content 0 20), (slice content 20 40), (slice content 40 60).
  assert (N1 : nonempty (slice content 0 20) = true)
    by (apply nonempty_length; lia).
  assert (N2 : nonempty (slice content 20 40) = true)
    by (apply nonempty_length; lia).
  assert (N3 : nonempty (slice content 40 60) = true)
    by (apply nonempty_length; lia).
  split.
  { unfold Server.stream_response, Server.split_chunks. rewrite Hlen.
    reflexivity. }
  unfold chunk_delta, chunk_finish_reason, Server.chunk_data. simpl.
  rewrite N1, N2, N3.
  repeat split; try assumption.
  rewrite !slice_app by lia. apply slice_all. lia.
Qed.

End StreamFacts.

Section StreamExamples.
#[local] Existing Instance Examples.runtime.
#[local] Existing Instance Examples.quiet.

(** C2, witness: a text of 45 letters. *)
Lemma stream_response_45_witness :
  exists d1 d2 d3 c1 c2 c3,
    Server.stream_response (repeat 97%N 45) (VStr (py "claude-code"))
    = [Server.sse d1; Server.sse d2; Server.sse d3; Server.sse_done]
    /\ chunk_delta d1 = Some (VDict [(py "content", VStr c1)])
    /\ chunk_delta d2 = Some (VDict [(py "content", VStr c2)])
    /\ chunk_delta d3 = Some (VDict [(py "content", VStr c3)])
    /\ length c1 = 20%nat /\ length c2 = 20%nat /\ length c3 = 5%nat
    /\ c1 ++ c2 ++ c3 = repeat 97%N 45
    /\ chunk_finish_reason d1 = Some VNone
    /\ chunk_finish_reason d2 = Some VNone
    /\ chunk_finish_reason d3 = Some (VStr (py "stop")).
Proof.
  apply (stream_response_45 (repeat 97%N 45)).
  reflexivity.
Defined.

(** C2, as stated, fails: on a text of 45 letters the stream has four
    events, not five; the event after the three chunks is the sentinel,
    so no separate event carries the stop reason. *)
Lemma stream_response_45_no_separate_stop_event :
  let events :=
    Server.stream_response (repeat 97%N 45) (VStr (py "claude-code")) in
  length events = 4%nat
  /\ nth 3 events [] = Server.sse_done
  /\ ~ (exists d1 d2 d3 stop,
          events = [Server.sse d1; Server.sse d2; Server.sse d3;
                    Server.sse stop; Server.sse_done]).
Proof.
  cbv zeta.
  split; [reflexivity|]. split; [reflexivity|].
  intros (d1 & d2 & d3 & stop & E).
  apply (f_equal (@length pystr)) in E.
  vm_compute in E. discriminate.
Qed.

End StreamExamples.

Section AggregatorFacts.
Context `{Runtime}.

Lemma append_text_blocks_spec (blocks parts : list value) :
  Client.append_text_blocks blocks parts = parts ++ text_blocks blocks.
Proof.
  revert parts. induction blocks as [|block blocks IH]; intros parts; simpl.
  - now rewrite app_nil_r.
  - destruct block; try apply IH.
    destruct (is_str _ _); rewrite IH; [|reflexivity].
    now rewrite <- app_assoc.
Qed.

(** One round of the loop on an envelope that is not a [result]: its
    fragments are appended to [parts]. *)
Lemma extract_loop_step (msg : value) (rest parts : list value) :
  readable msg = true ->
  has_type "result" msg = false ->
  Client.extract_loop (msg :: rest) parts
  = Client.extract_loop rest (parts ++ fragments msg).
Proof.
  intros Hr Hn. destruct msg as [| | | | | |d]; try discriminate.
  unfold readable in Hr. unfold has_type in Hn. unfold fragments, has_type.
  cbn [Client.extract_loop get bind is_dict andb envelope_type] in *.
  rewrite Hn.
  destruct (is_str (dict_get d (py "type") (VStr [])) (py "assistant")) eqn:Ea.
  - destruct (dict_get d (py "message") (VDict [])) as [| | | | | |m];
      try discriminate.
    cbn [get bind].
    destruct (dict_get m (py "content") (VList [])) as [| | | | |blocks|];
      try discriminate.
    cbn [iterate bind]. now rewrite append_text_blocks_spec.
  - destruct (is_str (dict_get d (py "type") (VStr [])) (py "content_block_delta")).
    + destruct (dict_get d (py "delta") (VDict [])) as [| | | | | |delta];
        try discriminate.
      cbn [get bind].
      destruct (is_str (dict_get delta (py "type") VNone) (py "text_delta"));
        [reflexivity|now rewrite app_nil_r].
    + now rewrite app_nil_r.
Qed.

Lemma extract_loop_prefix (pre rest parts : list value) :
  Forall (fun m => readable m = true) pre ->
  Forall (fun m => has_type "result" m = false) pre ->
  Client.extract_loop (pre ++ rest) parts
  = Client.extract_loop rest (parts ++ flat_map fragments pre).
Proof.
  intros Hr. revert parts. induction Hr as [|m pre Hm _ IH]; intros parts Hn.
  - simpl. now rewrite app_nil_r.
  - inversion Hn as [|? ? Hm' Hn']; subst.
    cbn [app flat_map]. rewrite extract_loop_step by assumption.
    rewrite IH by assumption. now rewrite <- app_assoc.
Qed.

Lemma join_values_texts (i : Z) (texts : list pystr) :
  join_values_from i [] (List.map VStr texts) = Ok (List.concat texts).
Proof.
  revert i. induction texts as [|s texts IH]; intros i; [reflexivity|].
  cbn [List.map join_values_from List.concat].
  destruct texts as [|s' texts].
  - simpl. now rewrite app_nil_r.
  - change (List.map VStr (s' :: texts)) with (VStr s' :: List.map VStr texts).
    cbv iota. change (VStr s' :: List.map VStr texts)
      with (List.map VStr (s' :: texts)).
    now rewrite IH.
Qed.

Lemma texts_are_strings (l : list value) :
  forallb is_text l = true -> l = List.map VStr (List.map text_of l).
Proof.
  induction l as [|v l IH]; [reflexivity|].
  simpl. intros E. apply andb_true_iff in E as [E1 E2].
  destruct v; try discriminate. simpl. now rewrite <- IH.
Qed.

Lemma forallb_flat_map (l : list value) :
  Forall (fun m => well_formed m = true) l ->
  forallb is_text (flat_map fragments l) = true.
Proof.
  induction 1 as [|m l Hm _ IH]; [reflexivity|].
  simpl. rewrite forallb_app, IH.
  unfold well_formed in Hm. apply andb_true_iff in Hm as [_ Hm].
  now rewrite Hm.
Qed.

Lemma well_formed_readable (l : list value) :
  Forall (fun m => well_formed m = true) l ->
  Forall (fun m => readable m = true) l.
Proof.
  apply Forall_impl. intros m Hm.
  unfold well_formed in Hm. now apply andb_true_iff in Hm as [Hm _].
Qed.

(** C3: when the sequence holds an envelope of type [result], the
    aggregator returns that envelope's [result] field, whatever
    fragments the [assistant] and [content_block_delta] envelopes before
    it carry (and whatever follows it).  The envelope meant is the one
    the loop meets first, the only one a collected turn has. *)
Theorem extract_text_result_overrides (pre post : list value)
    (d : list (pystr * value)) :
  Forall (fun m => readable m = true) pre ->
  Forall (fun m => has_type "result" m = false) pre ->
  has_type "result" (VDict d) = true ->
  Client.extract_text (pre ++ VDict d :: post)
  = Ok (dict_get d (py "result") (VStr [])).
Proof.
  intros Hr Hn Ht. unfold Client.extract_text.
  rewrite extract_loop_prefix by assumption.
  unfold has_type in Ht. cbn [is_dict andb envelope_type] in Ht.
  cbn [Client.extract_loop get bind]. now rewrite Ht.
Qed.

(** C4: without a [result] envelope the aggregator returns the
    concatenation, in arrival order and without separators, of the
    fragments of the envelopes: the text-kind blocks of [assistant]
    envelopes and the text deltas of [content_block_delta] envelopes.
    Envelopes of any other type carry no fragment, and a lone [error]
    envelope gives the empty string. *)
Theorem extract_text_concatenates_fragments (responses : list value) :
  Forall (fun m => well_formed m = true) responses ->
  Forall (fun m => has_type "result" m = false) responses ->
  Client.extract_text responses
  = Ok (VStr (List.concat (List.map text_of (flat_map fragments responses))))
  /\ (forall msg, In msg responses ->
                  has_type "assistant" msg = false ->
                  has_type "content_block_delta" msg = false ->
                  fragments msg = [])
  /\ (forall e, responses = [e] -> has_type "error" e = true ->
                Client.extract_text responses = Ok (VStr [])).
Proof.
  intros Hw Hn.
  assert (E : Client.extract_text responses
              = Ok (VStr (List.concat
                            (List.map text_of (flat_map fragments responses))))).
  { unfold Client.extract_text.
    rewrite <- (app_nil_r responses) at 1.
    rewrite extract_loop_prefix by auto using well_formed_readable.
    cbn [app Client.extract_loop]. unfold join_values.
    rewrite (texts_are_strings (flat_map fragments responses))
      by now apply forallb_flat_map.
    rewrite join_values_texts. cbn [bind].
    now rewrite <- texts_are_strings by now apply forallb_flat_map. }
  split; [exact E|]. split.
  - intros msg _ Ha Hd. unfold fragments. now rewrite Ha, Hd.
  - intros e -> He. rewrite E. cbn [flat_map].
    assert (F : fragments e = []).
    { unfold fragments.
      destruct e as [| | | | | |d]; try discriminate.
      unfold has_type in *. cbn [is_dict andb envelope_type] in *.
      destruct (dict_get d (py "type") (VStr [])) as [| | | |t| |];
        try discriminate.
      cbn [is_str] in *. apply str_eqb_eq in He. subst t. reflexivity. }
    rewrite F. reflexivity.
Qed.

End AggregatorFacts.

Section TurnFacts.
Context `{Runtime}.

Lemma split_newline_shorter (b line rest : pystr) :
  split_newline b = Some (line, rest) -> (length rest < length b)%nat.
Proof.
  revert line. induction b as [|c b IH]; intros line; simpl; [discriminate|].
  destruct (c =? 10)%N.
  - intros [= <- <-]. lia.
  - destruct (split_newline b) as [[l r]|]; [|discriminate].
    intros [= <- <-]. specialize (IH l eq_refl). lia.
Qed.

Lemma split_newline_app (b line rest tail : pystr) :
  split_newline b = Some (line, rest) ->
  split_newline (b ++ tail) = Some (line, rest ++ tail).
Proof.
  revert line. induction b as [|c b IH]; intros line; simpl; [discriminate|].
  destruct (c =? 10)%N.
  - now intros [= <- <-].
  - destruct (split_newline b) as [[l r]|]; [|discriminate].
    intros [= <- <-]. now rewrite (IH l eq_refl).
Qed.

Lemma split_newline_line (line rest : pystr) :
  ~ In 10%N line -> split_newline (line ++ nl ++ rest) = Some (line, rest).
Proof.
  induction line as [|c line IH]; intros Hn; [reflexivity|].
  simpl in *. destruct (N.eqb_spec c 10) as [->|_].
  - exfalso. apply Hn. now left.
  - rewrite IH; [reflexivity|]. intros Hin. apply Hn. now right.
Qed.

(** The fuel of the inner loop does not matter once it covers the
    buffer. *)
Lemma drain_lines_fuel (n m : nat) (b : pystr) :
  (length b <= n)%nat -> (length b <= m)%nat ->
  Client.drain_lines n b = Client.drain_lines m b.
Proof.
  revert m b. induction n as [|n IH]; intros m b Hn Hm.
  - destruct b; [|simpl in Hn; lia]. destruct m; reflexivity.
  - destruct m as [|m].
    + destruct b; [reflexivity|simpl in Hm; lia].
    + simpl. destruct (split_newline b) as [[line b']|] eqn:E; [|reflexivity].
      apply split_newline_shorter in E.
      rewrite (IH m b') by lia. reflexivity.
Qed.

(** The loop equation of [while "\n" in buffer]. *)
Lemma drain_unfold (buffer : pystr) :
  Client.drain buffer
  = match split_newline buffer with
    | None => ([], buffer, None)
    | Some (line, buffer') =>
        if negb (nonempty (strip line)) then Client.drain buffer'
        else
          match json_loads line with
          | None => Client.drain buffer'
          | Some msg =>
              match get msg (py "type") (VStr []) with
              | Raise e => ([msg], buffer', Some (Client.Raised e))
              | Ok msg_type =>
                  if is_str msg_type (py "result")
                  then ([msg], buffer', Some Client.Returned)
                  else if is_str msg_type (py "error")
                  then ([msg], buffer', Some Client.Returned)
                  else
                    let '(yielded, b, stop) := Client.drain buffer' in
                    (msg :: yielded, b, stop)
              end
          end
    end.
Proof.
  unfold Client.drain. destruct buffer as [|c buffer]; [reflexivity|].
  cbn [length Client.drain_lines].
  destruct (split_newline (c :: buffer)) as [[line b']|] eqn:E; [|reflexivity].
  apply split_newline_shorter in E. simpl in E.
  rewrite (drain_lines_fuel (length buffer) (length b') b') by lia.
  reflexivity.
Qed.

(** After the inner loop has gone through the buffer, what is left holds
    no newline. *)
Lemma drain_lines_rest (n : nat) (b : pystr) ys b' :
  (length b <= n)%nat ->
  Client.drain_lines n b = (ys, b', None) -> split_newline b' = None.
Proof.
  revert b ys. induction n as [|n IH]; intros b ys Hn.
  - destruct b; [|simpl in Hn; lia]. now intros [= <- <-].
  - simpl. destruct (split_newline b) as [[line b1]|] eqn:E.
    + pose proof (split_newline_shorter _ _ _ E) as Hs.
      destruct (negb (nonempty (strip line))); [apply IH; lia|].
      destruct (json_loads line) as [msg|]; [|apply IH; lia].
      destruct (get msg (py "type") (VStr [])) as [t|e]; [|discriminate].
      destruct (is_str t (py "result")); [discriminate|].
      destruct (is_str t (py "error")); [discriminate|].
      destruct (Client.drain_lines n b1) as [[ys1 b2] stop] eqn:D.
      intros [= <- <- ->]. apply (IH b1 ys1); [lia|assumption].
    + now intros [= <- <-].
Qed.

Lemma drain_rest (b : pystr) ys b' :
  Client.drain b = (ys, b', None) -> Client.drain b' = ([], b', None).
Proof.
  intros D. apply drain_lines_rest in D; [|unfold lt; lia].
  rewrite drain_unfold. now rewrite D.
Qed.

(** Draining a buffer that has received more text: the lines already
    complete are handled first, exactly as without the extra text. *)
Lemma drain_lines_app (n : nat) (x tail : pystr) :
  (length x <= n)%nat ->
  Client.drain_lines (n + length tail) (x ++ tail)
  = match Client.drain_lines n x with
    | (ys1, b1, Some e) => (ys1, b1 ++ tail, Some e)
    | (ys1, b1, None) =>
        let '(ys2, b2, stop2) := Client.drain (b1 ++ tail) in
        (ys1 ++ ys2, b2, stop2)
    end.
Proof.
  revert x. induction n as [|n IH]; intros x Hn.
  - destruct x; [|simpl in Hn; lia]. simpl. unfold Client.drain.
    now destruct (Client.drain_lines (length tail) tail) as [[? ?] ?].
  - destruct (split_newline x) as [[line x']|] eqn:E.
    + cbn [Nat.add Client.drain_lines].
      rewrite (split_newline_app _ _ _ tail E), E.
      pose proof (split_newline_shorter _ _ _ E) as Hs.
      destruct (negb (nonempty (strip line))); [apply IH; lia|].
      destruct (json_loads line) as [msg|]; [|apply IH; lia].
      destruct (get msg (py "type") (VStr [])) as [t|e]; [|reflexivity].
      destruct (is_str t (py "result")); [reflexivity|].
      destruct (is_str t (py "error")); [reflexivity|].
      rewrite IH by lia.
      destruct (Client.drain_lines n x') as [[ys1 b1] [e|]]; [reflexivity|].
      now destruct (Client.drain (b1 ++ tail)) as [[ys2 b2] stop2].
    + replace (Client.drain_lines (S n) x) with (@nil value, x, @None Client.ending)
        by (simpl; now rewrite E).
      unfold Client.drain.
      rewrite (drain_lines_fuel (S n + length tail) (length (x ++ tail)))
        by (rewrite ?length_app; lia).
      now destruct (Client.drain_lines (length (x ++ tail)) (x ++ tail))
        as [[? ?] ?].
Qed.

Lemma drain_app (x tail : pystr) :
  Client.drain (x ++ tail)
  = match Client.drain x with
    | (ys1, b1, Some e) => (ys1, b1 ++ tail, Some e)
    | (ys1, b1, None) =>
        let '(ys2, b2, stop2) := Client.drain (b1 ++ tail) in
        (ys1 ++ ys2, b2, stop2)
    end.
Proof.
  unfold Client.drain at 1 2. rewrite length_app.
  now apply drain_lines_app.
Qed.

End TurnFacts.

Section TurnCollection.
Context `{Runtime}.


Lemma not_dict_not_terminal (msg : value) (e : exn) :
  get msg (py "type") (VStr []) = Raise e -> is_terminal msg = false.
Proof. destruct msg; try reflexivity. discriminate. Qed.

Lemma get_type_terminal (msg t : value) :
  get msg (py "type") (VStr []) = Ok t ->
  is_terminal msg = is_str t (py "result") || is_str t (py "error").
Proof.
  destruct msg; try discriminate. intros [= <-]. reflexivity.
Qed.

(** What the inner loop yields: a terminal envelope only as its last
    item, and then the generator has returned. *)
Lemma drain_lines_shape (n : nat) (b : pystr) ys b' stop :
  Client.drain_lines n b = (ys, b', stop) ->
  match stop with
  | Some e => ends_at_terminal ys e
  | None => Forall (fun m => is_terminal m = false) ys
  end.
Proof.
  revert b ys b' stop. induction n as [|n IH]; intros b ys b' stop.
  - intros [= <- <- <-]. constructor.
  - simpl. destruct (split_newline b) as [[line b1]|].
    2:{ intros [= <- <- <-]. constructor. }
    destruct (negb (nonempty (strip line))); [apply IH|].
    destruct (json_loads line) as [msg|]; [|apply IH].
    destruct (get msg (py "type") (VStr [])) as [t|e] eqn:G.
    + pose proof (get_type_terminal _ _ G) as T.
      destruct (is_str t (py "result")).
      { intros [= <- <- <-]. exists [], msg. repeat split; auto. }
      destruct (is_str t (py "error")).
      { intros [= <- <- <-]. exists [], msg. repeat split; auto. }
      destruct (Client.drain_lines n b1) as [[ys1 b2] stop1] eqn:D.
      intros [= <- <- <-]. specialize (IH _ _ _ _ D).
      destruct stop1 as [[|e]|].
      * destruct IH as (pre & t' & -> & Hpre & Ht).
        exists (msg :: pre), t'.
        split; [reflexivity|]. split; [constructor; assumption|assumption].
      * constructor; assumption.
      * constructor; assumption.
    + intros [= <- <- <-]. simpl. constructor; [|constructor].
      exact (not_dict_not_terminal _ _ G).
Qed.

Lemma ends_at_terminal_app (ys more : list value) (e : Client.ending) :
  Forall (fun m => is_terminal m = false) ys -> ends_at_terminal more e -> ends_at_terminal (ys ++ more) e.
Proof.
  intros Hq. destruct e as [|x]; simpl.
  - intros (pre & t & -> & Hpre & Ht).
    exists (ys ++ pre), t. rewrite app_assoc. repeat split; auto.
    apply Forall_app. now split.
  - intros Hm. apply Forall_app. now split.
Qed.

Lemma read_loop_shape (timeout : Z) (events : list Client.read_event)
    (buffer : pystr) ys e rest :
  Client.read_loop timeout events buffer = (ys, e, rest) ->
  ends_at_terminal ys e.
Proof.
  revert buffer ys e rest.
  induction events as [|ev events IH]; intros buffer ys e rest.
  - intros [= <- <- <-]. constructor.
  - destruct ev as [|chunk|]; simpl.
    + intros [= <- <- <-]. constructor.
    + destruct (negb (nonempty chunk)); [apply IH|].
      destruct (Client.drain (buffer ++ chunk)) as [[ys1 b1] stop] eqn:D.
      apply drain_lines_shape in D.
      destruct stop as [e1|].
      * now intros [= <- <- <-].
      * destruct (Client.read_loop timeout events b1) as [[more e2] rest2] eqn:R.
        intros [= <- <- <-]. apply ends_at_terminal_app; [assumption|].
        exact (IH _ _ _ _ R).
    + intros [= <- <- <-]. constructor.
Qed.

(** Reading in chunks: when draining the whole text stops the
    generator, so does reading it chunk by chunk, with the same
    messages. *)
Lemma read_loop_chunks (timeout : Z) (chunks : list pystr)
    (rest : list Client.read_event) (buffer : pystr) ys b e :
  Client.drain buffer = ([], buffer, None) ->
  Client.drain (buffer ++ List.concat chunks) = (ys, b, Some e) ->
  exists rest',
    Client.read_loop timeout (List.map Client.Ready chunks ++ rest) buffer
    = (ys, e, rest').
Proof.
  revert buffer ys. induction chunks as [|chunk chunks IH]; intros buffer ys Hb.
  - simpl. rewrite app_nil_r, Hb. discriminate.
  - cbn [List.concat List.map app Client.read_loop].
    destruct chunk as [|c chunk]; [apply IH; assumption|].
    cbn [nonempty negb]. rewrite app_assoc, drain_app.
    destruct (Client.drain (buffer ++ c :: chunk)) as [[ys1 b1] [e1|]] eqn:D.
    + intros [= <- _ <-]. eexists. reflexivity.
    + destruct (Client.drain (b1 ++ List.concat chunks))
        as [[ys2 b2] stop2] eqn:D2.
      intros [= <- <- ->].
      destruct (IH b1 ys2 (drain_rest _ _ _ D) D2) as (rest' & R).
      rewrite R. eexists. reflexivity.
Qed.

(** Draining a transcript whose envelopes reach a terminal one: the
    envelopes before it and the terminal one are yielded, and the
    generator returns. *)
Lemma drain_unlines (lines : list pystr) (pre post : list value) (t : value) :
  Forall (fun l => ~ In 10%N l) lines ->
  decode_lines lines = pre ++ t :: post ->
  Forall (fun m => non_terminal_envelope m = true) pre ->
  is_terminal t = true ->
  exists b, Client.drain (unlines lines) = (pre ++ [t], b, Some Client.Returned).
Proof.
  intros Hl. revert pre. induction Hl as [|l lines Hnl _ IH]; intros pre Hd Hp Ht.
  - destruct pre; discriminate.
  - unfold unlines in *. cbn [List.map List.concat].
    rewrite <- app_assoc, drain_unfold, split_newline_line by assumption.
    unfold decode_lines in Hd. cbn [flat_map] in Hd.
    fold (decode_lines lines) in Hd.
    destruct (nonempty (strip l)); cbn [negb]; [|now apply IH].
    destruct (json_loads l) as [msg|]; [|now apply IH].
    cbn [app] in Hd.
    destruct pre as [|m pre].
    + injection Hd as <- _.
      destruct msg as [| | | | | |d]; try discriminate.
      cbn [get]. unfold is_terminal, has_type in Ht.
      cbn [is_dict andb envelope_type] in Ht.
      destruct (is_str (dict_get d (py "type") (VStr [])) (py "result")).
      * eexists. reflexivity.
      * cbn [orb] in Ht. rewrite Ht. eexists. reflexivity.
    + injection Hd as -> Hd.
      inversion Hp as [|? ? Hm Hp']; subst.
      unfold non_terminal_envelope in Hm.
      apply andb_true_iff in Hm as [Hdict Hq].
      destruct m as [| | | | | |d]; try discriminate.
      cbn [get]. unfold is_terminal, has_type in Hq.
      cbn [is_dict andb envelope_type] in Hq.
      apply negb_true_iff, orb_false_iff in Hq as [-> ->].
      destruct (IH pre Hd Hp' Ht) as (b & ->).
      eexists. reflexivity.
Qed.

Lemma terminal_is_last (pre pre' post : list value) (t t' : value) :
  pre ++ t :: post = pre' ++ [t'] ->
  Forall (fun m => is_terminal m = false) pre' ->
  is_terminal t = true ->
  post = [].
Proof.
  intros E Hpre Ht. revert pre' E Hpre.
  induction pre as [|m pre IH]; intros pre' E Hpre.
  - destruct pre' as [|m' pre']; cbn [app] in E.
    + now injection E as _ ->.
    + injection E as <- _. inversion Hpre; subst. congruence.
  - destruct pre' as [|m' pre']; cbn [app] in E.
    + injection E as _ E. destruct pre; discriminate.
    + injection E as _ E. inversion Hpre; subst. eapply IH; eauto.
Qed.

(** C5: turn collection stops at the first terminal envelope.  Whatever
    the channel delivers, the yielded sequence holds a terminal envelope
    ([result] or [error]) only as its last item, exactly when the
    generator returns; and when the lines delivered, in whatever chunks,
    carry a terminal envelope, the envelopes before the first one and
    that one are yielded, and nothing after it. *)
Theorem read_responses_stops_at_first_terminal (timeout : Z) (w : Client.world)
    (yielded : list value) (e : Client.ending) (w' : Client.world) :
  Client.read_responses timeout w = (yielded, e, w') ->
  ends_at_terminal yielded e
  /\ (forall pre t post, yielded = pre ++ t :: post ->
                         is_terminal t = true -> post = [])
  /\ (forall lines chunks rest pre t post,
        Client.fifo_out w = Some (List.map Client.Ready chunks ++ rest) ->
        List.concat chunks = unlines lines ->
        Forall (fun l => ~ In 10%N l) lines ->
        decode_lines lines = pre ++ t :: post ->
        Forall (fun m => non_terminal_envelope m = true) pre ->
        is_terminal t = true ->
        yielded = pre ++ [t] /\ e = Client.Returned).
Proof.
  intros R.
  assert (S : ends_at_terminal yielded e).
  { unfold Client.read_responses in R.
    destruct (Client.fifo_out w) as [events|].
    - destruct (Client.read_loop timeout events []) as [[ys e1] rest] eqn:L.
      injection R as <- <- _. exact (read_loop_shape _ _ _ _ _ _ L).
    - injection R as <- <- _. constructor. }
  split; [exact S|]. split.
  - intros pre t post -> Ht.
    destruct e as [|x]; simpl in S.
    + destruct S as (pre' & t' & E & Hpre & _).
      exact (terminal_is_last _ _ _ _ _ E Hpre Ht).
    + apply Forall_app in S as [_ S]. inversion S; subst. congruence.
  - intros lines chunks rest pre t post Hw Hc Hl Hd Hp Ht.
    destruct (drain_unlines lines pre post t Hl Hd Hp Ht) as (b & D).
    rewrite <- Hc in D.
    destruct (read_loop_chunks timeout chunks rest [] _ _ _ eq_refl D)
      as (rest' & L).
    unfold Client.read_responses in R. rewrite Hw, L in R.
    now injection R as <- <- _.
Qed.

End TurnCollection.

Section CallFacts.
Context `{Runtime}.

Lemma list_read_responses_fifo_in (timeout : Z) (w w' : Client.world) r :
  Client.list_read_responses timeout w = (r, w') ->
  Client.fifo_in w' = Client.fifo_in w.
Proof.
  unfold Client.list_read_responses, Client.read_responses.
  destruct (Client.fifo_out w) as [events|].
  - destruct (Client.read_loop timeout events []) as [[ys e] rest].
    destruct e; now intros [= _ <-].
  - now intros [= _ <-].
Qed.

(** C6: when the primary turn of a call has produced its text, a read
    timeout while draining the acknowledgement of the reset is
    swallowed: the call with [clear] returns that same text, after
    having sent the reset. *)
Theorem clear_drain_timeout_is_swallowed (prompt : pystr) (timeout : Z)
    (raw_prompt : bool) (w w1 : Client.world) (text : value) (e : exn) :
  Client.call prompt false timeout raw_prompt w = (Ok text, w1) ->
  fst (Client.list_read_responses 5 (Client.send_clear w1)) = Raise e ->
  exn_type e = TimeoutError ->
  exists w2,
    Client.call prompt true timeout raw_prompt w = (Ok text, w2)
    /\ Client.fifo_in w2 = Client.fifo_in (Client.send_clear w1).
Proof.
  unfold Client.call. intros P D T.
  destruct (Client.fifo_in w); [|discriminate].
  destruct (Client.list_read_responses timeout _) as [[responses|x] w'];
    [|discriminate].
  destruct (Client.extract_text responses) as [result|x]; [|discriminate].
  injection P as -> ->.
  destruct (Client.list_read_responses 5 (Client.send_clear w1))
    as [[ok|x] w2] eqn:L.
  - discriminate.
  - simpl in D. injection D as ->. rewrite T. exists w2.
    split; [reflexivity|]. exact (list_read_responses_fifo_in _ _ _ _ L).
Qed.

End CallFacts.

Section ClientExamples.
#[local] Existing Instance Examples.runtime.

Lemma no_newline_check (l : pystr) :
  forallb (fun c => negb (c =? 10)%N) l = true -> ~ In 10%N l.
Proof.
  intros F Hin. rewrite forallb_forall in F.
  specialize (F _ Hin). discriminate.
Qed.

(** C3, witness: two fragments, then the result. *)
Lemma extract_text_result_overrides_witness :
  Client.extract_text
    [Examples.assistant_msg; Examples.delta_msg; Examples.result_msg]
  = Ok (VStr (py "Hello")).
Proof.
  apply (extract_text_result_overrides
           [Examples.assistant_msg; Examples.delta_msg] []
           [ (py "type", VStr (py "result")); (py "result", VStr (py "Hello")) ]).
  - repeat constructor.
  - repeat constructor.
  - reflexivity.
Defined.

(** C4, witness: fragments around an envelope of another type, and a
    lone error envelope. *)
Lemma extract_text_concatenates_fragments_witness :
  Client.extract_text
    [Examples.assistant_msg; Examples.system_msg; Examples.delta_msg]
  = Ok (VStr (py "Hello"))
  /\ Client.extract_text [Examples.error_msg] = Ok (VStr []).
Proof.
  split.
  - apply (extract_text_concatenates_fragments
             [Examples.assistant_msg; Examples.system_msg; Examples.delta_msg]);
      repeat constructor.
  - apply (extract_text_concatenates_fragments [Examples.error_msg])
      with (e := Examples.error_msg); repeat constructor.
Defined.

(** C5, witness: the transcript read in two chunks; the message behind
    the result is not yielded. *)
Lemma read_responses_stops_at_first_terminal_witness :
  Client.read_responses 120 Examples.turn_world
  = ([Examples.system_msg; Examples.assistant_msg] ++ [Examples.result_msg],
     Client.Returned,
     Client.World (Some []) (Some Examples.late_events))
  /\ ends_at_terminal
       ([Examples.system_msg; Examples.assistant_msg] ++ [Examples.result_msg])
       Client.Returned
  /\ [Examples.system_msg; Examples.assistant_msg] ++ [Examples.result_msg]
     = [Examples.system_msg; Examples.assistant_msg] ++ [Examples.result_msg]
  /\ Client.Returned = Client.Returned.
Proof.
  assert (R : Client.read_responses 120 Examples.turn_world
              = ([Examples.system_msg; Examples.assistant_msg]
                 ++ [Examples.result_msg],
                 Client.Returned,
                 Client.World (Some []) (Some Examples.late_events)))
    by reflexivity.
  split; [exact R|].
  destruct (read_responses_stops_at_first_terminal 120 Examples.turn_world
              _ _ _ R) as (S & _ & L).
  split; [exact S|].
  apply (L Examples.transcript Examples.transcript_chunks Examples.late_events
           [Examples.system_msg; Examples.assistant_msg]
           Examples.result_msg []).
  - reflexivity.
  - reflexivity.
  - repeat constructor; apply no_newline_check; reflexivity.
  - reflexivity.
  - repeat constructor.
  - reflexivity.
Defined.

(** C6, witness: the daemon answers ["Hello"] and stays silent after
    the reset. *)
Lemma clear_drain_timeout_is_swallowed_witness :
  exists w2,
    Client.call (py "hi") true 120 false Examples.silent_clear_world
    = (Ok (VStr (py "Hello")), w2)
    /\ Client.fifo_in w2
       = Some [ json_dumps (Client.user_envelope (Client.wrap_prompt (py "hi")))
                ++ nl;
                json_dumps (Client.user_envelope (py "/clear")) ++ nl ].
Proof.
  assert (P : Client.call (py "hi") false 120 false Examples.silent_clear_world
              = (Ok (VStr (py "Hello")),
                 Client.World
                   (Some [ json_dumps
                             (Client.user_envelope (Client.wrap_prompt (py "hi")))
                           ++ nl ])
                   (Some [ Client.NotReady ])))
    by reflexivity.
  destruct (clear_drain_timeout_is_swallowed (py "hi") 120 false
              Examples.silent_clear_world _ _ Client.response_timeout
              P eq_refl eq_refl) as (w2 & E & F).
  exists w2. split; [exact E|]. rewrite F. reflexivity.
Defined.

(** A line that is not JSON between two envelopes does not interrupt
    the collection of the two. *)
Example malformed_line_is_skipped :
  Client.read_responses 120
    (Client.World (Some [])
       (Some [ Client.Ready (Examples.assistant_line ++ nl ++ py "{oops" ++ nl
                             ++ Examples.result_line ++ nl) ]))
  = ([Examples.assistant_msg; Examples.result_msg], Client.Returned,
     Client.World (Some []) (Some [])).
Proof. reflexivity. Qed.

End ClientExamples.

Section GatewayFacts.
Context {R : Runtime} {G : Server.Gateway}.

Lemma messages_body_nonempty (d : list (pystr * value)) :
  truthy (messages_of d) = true -> truthy (VDict d) = true.
Proof. destruct d; [discriminate|reflexivity]. Qed.

(** Every entry of the routing table gives an agent and a sub-model. *)
Lemma routing_entry (model_name cfg : value) :
  Server.MODEL_MAP_get model_name = Ok cfg ->
  truthy cfg = true ->
  exists agent model,
    Server.getitem cfg (py "agent") = Ok agent
    /\ Server.getitem cfg (py "model") = Ok model.
Proof.
  destruct model_name as [| | | |s| |]; simpl;
    try (intros [= <-]; discriminate); try discriminate.
  intros [= <-]. unfold dict_get, Server.MODEL_MAP.
  cbn [lookup].
  repeat match goal with
         | |- context [if str_eqb ?k s then _ else _] =>
             destruct (str_eqb k s);
             [intros _; eexists; eexists; split; reflexivity|]
         end.
  discriminate.
Qed.

(** A valid request for a model the table does not know. *)
Lemma chat_completions_unknown (req : Server.request)
    (d : list (pystr * value)) (cfg : value) :
  valid_request req d ->
  Server.MODEL_MAP_get (model_of d) = Ok cfg ->
  truthy cfg = false ->
  Server.chat_completions req
  = Server.JsonResponse
      (Server.error_body
         [ (py "message", VStr (py "Unknown model: " ++ py_str (model_of d)));
           (py "type", VStr (py "invalid_request_error")) ])
      400.
Proof.
  intros (Ha & Hj & Hm) Hc Ht.
  unfold Server.chat_completions, Server.handle_chat_completions.
  rewrite Ha, Hj. cbn [negb bind get].
  rewrite (messages_body_nonempty d Hm). cbn [negb].
  fold (model_of d) (messages_of d).
  rewrite Hm. cbn [negb]. rewrite Hc. cbn [bind]. rewrite Ht. reflexivity.
Qed.

(** A valid request for a model of the table, once translated: the
    agent is called and its answer delivered. *)
Lemma chat_completions_routed (req : Server.request)
    (d : list (pystr * value)) (cfg agent model : value) (prompt : pystr)
    (schema : value) :
  valid_request req d ->
  translates d prompt schema ->
  Server.MODEL_MAP_get (model_of d) = Ok cfg ->
  truthy cfg = true ->
  Server.getitem cfg (py "agent") = Ok agent ->
  Server.getitem cfg (py "model") = Ok model ->
  Server.chat_completions req
  = reply (stream_of d)
      (Server.call_agent prompt
         (if nonempty Server.FORCE_AGENT then VStr Server.FORCE_AGENT else agent)
         (if nonempty Server.FORCE_AGENT then VNone else model)
         (context_of d) schema 300)
      (model_of d).
Proof.
  intros (Ha & Hj & Hm) (Hp & Hs) Hc Ht Hga Hgm.
  unfold Server.chat_completions, Server.handle_chat_completions.
  rewrite Ha, Hj. cbn [negb bind get].
  rewrite (messages_body_nonempty d Hm). cbn [negb].
  fold (model_of d) (messages_of d) (stream_of d) (response_format_of d)
       (context_of d).
  rewrite Hm. cbn [negb]. rewrite Hc. cbn [bind]. rewrite Ht. cbn [negb].
  rewrite Hga. cbn [bind]. rewrite Hgm. cbn [bind].
  rewrite Hp. cbn [bind]. rewrite Hs. cbn [bind].
  unfold reply. destruct (truthy (stream_of d)); reflexivity.
Qed.

(** A completion object sent with status 200 is made by
    [create_response] from the agent's answer alone. *)
Lemma completion_bodies (req : Server.request) (body : value) :
  Server.chat_completions req = Server.JsonResponse body 200 ->
  exists content model,
    body = Server.create_response content model VNone 0 0.
Proof.
  unfold Server.chat_completions, Server.handle_chat_completions.
  destruct (negb (Server.check_auth req)); [discriminate|].
  destruct (Server.get_json req) as [data|x]; cbn [bind]; [|discriminate].
  destruct (negb (truthy data)); [discriminate|].
  destruct (get data (py "model") _) as [model_name|x]; cbn [bind];
    [|discriminate].
  destruct (get data (py "messages") _) as [messages|x]; cbn [bind];
    [|discriminate].
  destruct (get data (py "stream") _) as [stream|x]; cbn [bind];
    [|discriminate].
  destruct (get data (py "response_format") _) as [rf|x]; cbn [bind];
    [|discriminate].
  destruct (get data (py "context") _) as [context|x]; cbn [bind];
    [|discriminate].
  destruct (negb (truthy messages)); [discriminate|].
  destruct (Server.MODEL_MAP_get model_name) as [cfg|x]; cbn [bind];
    [|discriminate].
  destruct (negb (truthy cfg)); [discriminate|].
  destruct (Server.getitem cfg (py "agent")) as [agent|x]; cbn [bind];
    [|discriminate].
  destruct (Server.getitem cfg (py "model")) as [model|x]; cbn [bind];
    [|discriminate].
  destruct (Server.messages_to_prompt messages) as [prompt|x]; cbn [bind];
    [|discriminate].
  destruct (Server.extract_json_schema rf) as [schema|x]; cbn [bind];
    [|discriminate].
  destruct (truthy stream); [discriminate|].
  intros [= <-]. eexists. eexists. reflexivity.
Qed.

(** C1, as the code has it: in every completion object the gateway
    sends, [prompt_tokens] is the word count of the completion text
    halved (rounding down), [completion_tokens] is the word count of the
    completion text, and [total_tokens] is their sum.  The prompt plays
    no part. *)
Theorem usage_is_estimated_from_the_completion (req : Server.request)
    (body : value) :
  Server.chat_completions req = Server.JsonResponse body 200 ->
  exists content,
    completion_content body = Some (VStr content)
    /\ usage "prompt_tokens" body = Some (VInt (word_count content / 2))
    /\ usage "completion_tokens" body = Some (VInt (word_count content))
    /\ usage "total_tokens" body
       = Some (VInt (word_count content / 2 + word_count content)).
Proof.
  intros E. apply completion_bodies in E as (content & model & ->).
  exists content. repeat split.
Qed.

Lemma call_agent_reports_stderr (prompt : pystr)
    (agent model context schema : value) (timeout : Z) (msg : pystr) :
  (forall cmd t cwd, exists rc out err,
      Server.subprocess_run cmd t cwd = Server.Completed rc out err
      /\ rc <> 0 /\ strip err = msg) ->
  nonempty msg = true ->
  Server.call_agent prompt agent model context schema timeout
  = py "Error: " ++ msg.
Proof.
  intros Hfail Hmsg. unfold Server.call_agent.
  match goal with
  | |- context [Server.subprocess_run ?cmd ?t ?cwd] =>
      destruct (Hfail cmd t cwd) as (rc & out & err & -> & Hrc & Hs)
  end.
  apply Z.eqb_neq in Hrc. rewrite Hrc. cbn [negb].
  now rewrite Hs, Hmsg.
Qed.

(** [call_agent] runs one command, [agent_command], and turns the way
    it ends into text. *)
Lemma call_agent_outcome (prompt : pystr)
    (agent model context schema : value) (timeout : Z) :
  Server.call_agent prompt agent model context schema timeout
  = match Server.subprocess_run
            (agent_command prompt agent model context schema) timeout
            (agent_cwd context) with
    | Server.Completed returncode stdout stderr =>
        if negb (returncode =? 0)
        then py "Error: "
             ++ (if nonempty (strip stderr) then strip stderr
                 else py "Agent execution failed")
        else strip stdout
    | Server.TimeoutExpired => py "Error: Agent execution timed out"
    | Server.RunFailed e => py "Error: " ++ exn_str e
    end.
Proof. reflexivity. Qed.

Lemma unknown_model_lookup (m : value) :
  hashable m = true -> is_routing_key m = false ->
  Server.MODEL_MAP_get m = Ok VNone.
Proof.
  destruct m as [| | | |s| |]; try reflexivity; try discriminate.
  intros _. unfold is_routing_key, Server.MODEL_MAP_get, dict_get.
  now destruct (lookup Server.MODEL_MAP s).
Qed.

(** C7, as the code has it: a valid request (authenticated, with a
    JSON object as body and non-empty messages) for ["claude-code-opus"]
    goes to agent ["claude"] with sub-model ["opus"] when no agent is
    forced; a valid request whose model is a string, or another
    hashable value, that is not a key of the routing table is answered
    with status 400 and error type ["invalid_request_error"]. *)
Theorem model_routing (req : Server.request) (d : list (pystr * value)) :
  valid_request req d ->
  (forall prompt schema,
      translates d prompt schema ->
      lookup d (py "model") = Some (VStr (py "claude-code-opus")) ->
      Server.FORCE_AGENT = [] ->
      Server.chat_completions req
      = reply (stream_of d)
          (Server.call_agent prompt (VStr (py "claude")) (VStr (py "opus"))
             (context_of d) schema 300)
          (VStr (py "claude-code-opus")))
  /\ (forall m,
        lookup d (py "model") = Some m ->
        hashable m = true ->
        is_routing_key m = false ->
        exists body,
          Server.chat_completions req = Server.JsonResponse body 400
          /\ error_type body = Some (VStr (py "invalid_request_error"))).
Proof.
  intros Hv. split.
  - intros prompt schema Ht Hm Hf.
    assert (M : model_of d = VStr (py "claude-code-opus"))
      by (unfold model_of, dict_get; now rewrite Hm).
    rewrite (chat_completions_routed req d
               (Server.route "claude" (VStr (py "opus")))
               (VStr (py "claude")) (VStr (py "opus")) prompt schema Hv Ht);
      try (rewrite M; reflexivity); try reflexivity.
    rewrite Hf, M. reflexivity.
  - intros m Hm Hh Hk.
    assert (M : model_of d = m)
      by (unfold model_of, dict_get; now rewrite Hm).
    eexists. split.
    + apply (chat_completions_unknown req d VNone Hv); [|reflexivity].
      rewrite M. now apply unknown_model_lookup.
    + reflexivity.
Qed.

End GatewayFacts.

Section GatewayFailures.
Context {R : Runtime} {G : Server.Gateway}.


End GatewayFailures.

Section GatewayDefaults.
Context {R : Runtime} {G : Server.Gateway}.

(** C9, as the code has it: a valid request whose body has no [model]
    field is not rejected with status 400; it is answered exactly as the
    same request with model ["claude-code"]: the agent is ["claude"],
    or the forced agent when one is configured, without sub-model. *)
Theorem missing_model_is_claude_code (req : Server.request)
    (d : list (pystr * value)) :
  valid_request req d ->
  lookup d (py "model") = None ->
  Server.chat_completions req
  = Server.chat_completions
      (Server.Request (Server.authorization req)
         (Ok (VDict ((py "model", VStr (py "claude-code")) :: d))))
  /\ Server.status_code (Server.chat_completions req) <> 400
  /\ (forall prompt schema,
        translates d prompt schema ->
        Server.chat_completions req
        = reply (stream_of d)
            (Server.call_agent prompt
               (if nonempty Server.FORCE_AGENT
                then VStr Server.FORCE_AGENT else VStr (py "claude"))
               VNone (context_of d) schema 300)
            (VStr (py "claude-code"))).
Proof.
  intros Hv Hm.
  assert (M : model_of d = VStr (py "claude-code"))
    by (unfold model_of, dict_get; now rewrite Hm).
  assert (Routed : forall prompt schema,
             translates d prompt schema ->
             Server.chat_completions req
             = reply (stream_of d)
                 (Server.call_agent prompt
                    (if nonempty Server.FORCE_AGENT
                     then VStr Server.FORCE_AGENT else VStr (py "claude"))
                    VNone (context_of d) schema 300)
                 (VStr (py "claude-code"))).
  { intros prompt schema Ht.
    rewrite (chat_completions_routed req d (Server.route "claude" VNone)
               (VStr (py "claude")) VNone prompt schema Hv Ht);
      try (rewrite M; reflexivity); try reflexivity.
    rewrite M. now destruct (nonempty Server.FORCE_AGENT). }
  split; [|split; [|exact Routed]].
  - destruct Hv as (Ha & Hj & Hmsg).
    unfold Server.chat_completions, Server.handle_chat_completions.
    unfold Server.check_auth in *. cbn [Server.authorization Server.get_json].
    rewrite Hj. cbn [bind get].
    rewrite (messages_body_nonempty d Hmsg).
    unfold dict_get. cbn [lookup truthy]. rewrite Hm.
    change (str_eqb (py "model") (py "model")) with true.
    change (str_eqb (py "model") (py "messages")) with false.
    change (str_eqb (py "model") (py "stream")) with false.
    change (str_eqb (py "model") (py "response_format")) with false.
    change (str_eqb (py "model") (py "context")) with false.
    reflexivity.
  - destruct Hv as (Ha & Hj & Hmsg).
    unfold Server.chat_completions, Server.handle_chat_completions.
    rewrite Ha, Hj. cbn [negb bind get].
    rewrite (messages_body_nonempty d Hmsg). cbn [negb].
    fold (model_of d) (messages_of d) (stream_of d) (response_format_of d)
         (context_of d).
    rewrite Hmsg, M. cbn [negb].
    change (Server.MODEL_MAP_get (VStr (py "claude-code")))
      with (Ok (Server.route "claude" VNone)).
    cbn [bind Server.route truthy negb].
    change (Server.getitem
              (VDict [(py "agent", VStr (py "claude")); (py "model", VNone)])
              (py "agent")) with (Ok (VStr (py "claude"))).
    change (Server.getitem
              (VDict [(py "agent", VStr (py "claude")); (py "model", VNone)])
              (py "model")) with (Ok VNone).
    cbn [bind].
    destruct (Server.messages_to_prompt (messages_of d)); cbn [bind];
      [|discriminate].
    destruct (Server.extract_json_schema (response_format_of d)); cbn [bind];
      [|discriminate].
    destruct (truthy (stream_of d)); discriminate.
Qed.

End GatewayDefaults.

Section GatewayExamples.
#[local] Existing Instance Examples.runtime.

(** C1, witness: the agent answers with three words. *)
Lemma usage_is_estimated_from_the_completion_witness :
  exists body,
    @Server.chat_completions _ (Examples.gateway (Examples.prints "one two three"))
      (Examples.post [ (py "messages", VList [Examples.user_message "Hi"]) ])
    = Server.JsonResponse body 200
    /\ exists content,
         completion_content body = Some (VStr content)
         /\ usage "prompt_tokens" body = Some (VInt (word_count content / 2))
         /\ usage "completion_tokens" body = Some (VInt (word_count content))
         /\ usage "total_tokens" body
            = Some (VInt (word_count content / 2 + word_count content)).
Proof.
  eexists. split; [reflexivity|].
  apply (usage_is_estimated_from_the_completion
           (G := Examples.gateway (Examples.prints "one two three"))
           (Examples.post [ (py "messages", VList [Examples.user_message "Hi"]) ])).
  reflexivity.
Defined.

(** C1, as stated, fails: a prompt of four words answered with one word
    gets [prompt_tokens] 0, not 4 // 2 = 2. *)
Lemma prompt_tokens_do_not_count_the_prompt :
  let messages := VList [Examples.user_message "a b c d"] in
  Server.messages_to_prompt messages = Ok (py "a b c d")
  /\ word_count (py "a b c d") / 2 = 2
  /\ exists body,
       @Server.chat_completions _ (Examples.gateway (Examples.prints "x"))
         (Examples.post [ (py "messages", messages) ])
       = Server.JsonResponse body 200
       /\ completion_content body = Some (VStr (py "x"))
       /\ usage "prompt_tokens" body = Some (VInt 0)
       /\ usage "prompt_tokens" body
          <> Some (VInt (word_count (py "a b c d") / 2)).
Proof.
  cbv zeta. split; [reflexivity|]. split; [reflexivity|].
  eexists. split; [reflexivity|]. split; [reflexivity|].
  split; [reflexivity|]. discriminate.
Qed.

(** A system message and a user message flatten to two paragraphs. *)
Example two_messages_flatten :
  Server.messages_to_prompt
    (VList [ VDict [ (py "role", VStr (py "system"));
                     (py "content", VStr (py "Be terse")) ];
             Examples.user_message "Hi" ])
  = Ok (py "[System]: Be terse" ++ nl ++ nl ++ py "Hi").
Proof. reflexivity. Qed.

(** C7, witness: a request for ["claude-code-opus"], and one for a
    model the table does not have. *)
Lemma model_routing_witness :
  @Server.chat_completions _ Examples.quiet
    (Examples.post [ (py "model", VStr (py "claude-code-opus"));
                     (py "messages", VList [Examples.user_message "Hi"]) ])
  = @reply _ Examples.quiet (VBool false)
      (@Server.call_agent Examples.quiet (py "Hi") (VStr (py "claude"))
         (VStr (py "opus")) VNone VNone 300)
      (VStr (py "claude-code-opus"))
  /\ exists body,
       @Server.chat_completions _ Examples.quiet
         (Examples.post [ (py "model", VStr (py "gpt-4"));
                          (py "messages", VList [Examples.user_message "Hi"]) ])
       = Server.JsonResponse body 400
       /\ error_type body = Some (VStr (py "invalid_request_error")).
Proof.
  split.
  - apply (proj1 (model_routing (G := Examples.quiet)
                    (Examples.post
                       [ (py "model", VStr (py "claude-code-opus"));
                         (py "messages", VList [Examples.user_message "Hi"]) ])
                    [ (py "model", VStr (py "claude-code-opus"));
                      (py "messages", VList [Examples.user_message "Hi"]) ]
                    (conj eq_refl (conj eq_refl eq_refl)))
             (py "Hi") VNone (conj eq_refl eq_refl) eq_refl eq_refl).
  - apply (proj2 (model_routing (G := Examples.quiet)
                    (Examples.post
                       [ (py "model", VStr (py "gpt-4"));
                         (py "messages", VList [Examples.user_message "Hi"]) ])
                    [ (py "model", VStr (py "gpt-4"));
                      (py "messages", VList [Examples.user_message "Hi"]) ]
                    (conj eq_refl (conj eq_refl eq_refl)))
             (VStr (py "gpt-4")) eq_refl eq_refl eq_refl).
Defined.

(** C7, as stated, fails: a request for a model the table does not
    have, sent without messages, is answered with status 400 but with no
    error type. *)
Lemma unknown_model_without_messages_has_no_error_type :
  is_routing_key (VStr (py "gpt-4")) = false
  /\ exists body,
       @Server.chat_completions _ Examples.quiet
         (Examples.post [ (py "model", VStr (py "gpt-4"));
                          (py "messages", VList []) ])
       = Server.JsonResponse body 400
       /\ error_type body = None
       /\ error_type body <> Some (VStr (py "invalid_request_error")).
Proof.
  split; [reflexivity|].
  eexists. split; [reflexivity|]. split; [reflexivity|]. discriminate.
Qed.


(** C9, witness: a body with messages only. *)
Lemma missing_model_is_claude_code_witness :
  Server.status_code
    (@Server.chat_completions _ Examples.quiet
       (Examples.post [ (py "messages", VList [Examples.user_message "Hi"]) ]))
  <> 400
  /\ @Server.chat_completions _ Examples.quiet
       (Examples.post [ (py "messages", VList [Examples.user_message "Hi"]) ])
     = @reply _ Examples.quiet (VBool false)
         (@Server.call_agent Examples.quiet (py "Hi") (VStr (py "claude"))
            VNone VNone VNone 300)
         (VStr (py "claude-code")).
Proof.
  destruct (missing_model_is_claude_code (G := Examples.quiet)
              (Examples.post
                 [ (py "messages", VList [Examples.user_message "Hi"]) ])
              [ (py "messages", VList [Examples.user_message "Hi"]) ]
              (conj eq_refl (conj eq_refl eq_refl)) eq_refl)
    as (_ & S & Routed).
  split; [exact S|].
  exact (Routed (py "Hi") VNone (conj eq_refl eq_refl)).
Defined.

(** C9, as stated, fails: on a gateway dedicated to [codex] a request
    without [model] is handed to [codex], not to [claude]: the agent
    script, which prints the name of the agent it is asked for, answers
    [codex]. *)
Lemma missing_model_goes_to_the_forced_agent :
  lookup [ (py "messages", VList [Examples.user_message "Hi"]) ] (py "model")
  = None
  /\ @Server.chat_completions _ Examples.forced_naming
       (Examples.post [ (py "messages", VList [Examples.user_message "Hi"]) ])
     = @reply _ Examples.forced_naming (VBool false)
         (@Server.call_agent Examples.forced_naming (py "Hi")
            (VStr (py "codex")) VNone VNone VNone 300)
         (VStr (py "claude-code"))
  /\ Examples.agent_of
       (@agent_command Examples.forced_naming (py "Hi") (VStr (py "codex"))
          VNone VNone VNone)
     = py "codex"
  /\ exists body,
       @Server.chat_completions _ Examples.forced_naming
         (Examples.post [ (py "messages", VList [Examples.user_message "Hi"]) ])
       = Server.JsonResponse body 200
       /\ completion_content body = Some (VStr (py "codex"))
       /\ completion_content body <> Some (VStr (py "claude")).
Proof.
  split; [reflexivity|]. split; [reflexivity|]. split; [reflexivity|].
  eexists. split; [reflexivity|]. split; [reflexivity|]. discriminate.
Qed.

End GatewayExamples.

(** * Further properties of the session client *)

Section FramingFacts.
Context `{Runtime}.

Lemma split_newline_none (s : pystr) :
  ~ In 10%N s -> split_newline s = None.
Proof.
  induction s as [|c s IH]; intros Hn; [reflexivity|].
  simpl. destruct (N.eqb_spec c 10) as [->|_].
  - exfalso. apply Hn. now left.
  - rewrite IH; [reflexivity|]. intros Hin. apply Hn. now right.
Qed.

(** Reading chunk by chunk is draining the whole text: the messages and
    the ending are those of the inner loop run on the concatenation, a
    loop that does not stop meaning a timeout once the reads are used
    up. *)
Lemma read_loop_all_ready (timeout : Z) (chunks : list pystr) (buffer : pystr) :
  Client.drain buffer = ([], buffer, None) ->
  exists rest',
    Client.read_loop timeout (List.map Client.Ready chunks) buffer
    = (fst (fst (Client.drain (buffer ++ List.concat chunks))),
       match snd (Client.drain (buffer ++ List.concat chunks)) with
       | Some e => e
       | None => Client.Raised Client.response_timeout
       end,
       rest').
Proof.
  revert buffer. induction chunks as [|chunk chunks IH]; intros buffer Hb.
  - simpl. rewrite app_nil_r, Hb. eexists. reflexivity.
  - cbn [List.concat List.map Client.read_loop].
    destruct chunk as [|c chunk]; [apply IH; assumption|].
    cbn [nonempty negb].
    rewrite (app_assoc buffer (c :: chunk) (List.concat chunks)).
    rewrite (drain_app (buffer ++ c :: chunk) (List.concat chunks)).
    destruct (Client.drain (buffer ++ c :: chunk)) as [[ys1 b1] [e1|]] eqn:D.
    + eexists. reflexivity.
    + destruct (IH b1 (drain_rest _ _ _ D)) as (rest' & ->).
      destruct (Client.drain (b1 ++ List.concat chunks)) as [[ys2 b2] stop2].
      eexists. reflexivity.
Qed.

(** Draining complete lines that carry no terminal envelope, followed
    by the beginning of a line: every envelope is yielded and the
    unfinished line stays in the buffer. *)
Lemma drain_unlines_quiet (lines : list pystr) (partial : pystr) :
  Forall (fun l => ~ In 10%N l) lines ->
  ~ In 10%N partial ->
  Forall (fun m => non_terminal_envelope m = true) (decode_lines lines) ->
  Client.drain (unlines lines ++ partial) = (decode_lines lines, partial, None).
Proof.
  intros Hl Hp. induction Hl as [|l lines Hnl _ IH]; intros Hq.
  - cbn [unlines List.map List.concat app decode_lines flat_map].
    now rewrite drain_unfold, split_newline_none.
  - unfold unlines in *. cbn [List.map List.concat].
    rewrite <- !app_assoc, drain_unfold, split_newline_line by assumption.
    unfold decode_lines in *. cbn [flat_map] in *.
    destruct (nonempty (strip l)); cbn [negb app] in *; [|now apply IH].
    destruct (json_loads l) as [msg|]; cbn [app] in *; [|now apply IH].
    inversion Hq as [|? ? Hm Hq']; subst.
    unfold non_terminal_envelope in Hm.
    apply andb_true_iff in Hm as [Hdict Hm].
    destruct msg as [| | | | | |d]; try discriminate.
    cbn [get]. unfold is_terminal, has_type in Hm.
    cbn [is_dict andb envelope_type] in Hm.
    apply negb_true_iff, orb_false_iff in Hm as [-> ->].
    now rewrite IH.
Qed.

(** Draining a transcript whose first envelope that is not an ordinary
    one is a JSON value without [get]: it is yielded, and the generator
    dies of the [AttributeError]. *)
Lemma drain_unlines_crash (lines : list pystr) (pre post : list value)
    (m : value) :
  Forall (fun l => ~ In 10%N l) lines ->
  decode_lines lines = pre ++ m :: post ->
  Forall (fun x => non_terminal_envelope x = true) pre ->
  is_dict m = false ->
  exists b,
    Client.drain (unlines lines)
    = (pre ++ [m], b, Some (Client.Raised (no_attribute m (py "get")))).
Proof.
  intros Hl. revert pre. induction Hl as [|l lines Hnl _ IH]; intros pre Hd Hp Hm.
  - destruct pre; discriminate.
  - unfold unlines in *. cbn [List.map List.concat].
    rewrite <- app_assoc, drain_unfold, split_newline_line by assumption.
    unfold decode_lines in Hd. cbn [flat_map] in Hd.
    fold (decode_lines lines) in Hd.
    destruct (nonempty (strip l)); cbn [negb]; [|now apply IH].
    destruct (json_loads l) as [msg|]; [|now apply IH].
    cbn [app] in Hd.
    destruct pre as [|x pre].
    + injection Hd as <- _.
      destruct msg; try discriminate; eexists; reflexivity.
    + injection Hd as -> Hd.
      inversion Hp as [|? ? Hx Hp']; subst.
      unfold non_terminal_envelope in Hx.
      apply andb_true_iff in Hx as [Hdict Hq].
      destruct x as [| | | | | |d]; try discriminate.
      cbn [get]. unfold is_terminal, has_type in Hq.
      cbn [is_dict andb envelope_type] in Hq.
      apply negb_true_iff, orb_false_iff in Hq as [-> ->].
      destruct (IH pre Hd Hp' Hm) as (b & ->).
      eexists. reflexivity.
Qed.

Lemma read_loop_crash (timeout : Z) (lines chunks : list pystr)
    (rest : list Client.read_event) (pre post : list value) (m : value) :
  List.concat chunks = unlines lines ->
  Forall (fun l => ~ In 10%N l) lines ->
  decode_lines lines = pre ++ m :: post ->
  Forall (fun x => non_terminal_envelope x = true) pre ->
  is_dict m = false ->
  exists rest',
    Client.read_loop timeout (List.map Client.Ready chunks ++ rest) []
    = (pre ++ [m], Client.Raised (no_attribute m (py "get")), rest').
Proof.
  intros Hc Hl Hd Hp Hm.
  destruct (drain_unlines_crash lines pre post m Hl Hd Hp Hm) as (b & D).
  rewrite <- Hc in D.
  exact (read_loop_chunks timeout chunks rest [] _ _ _ eq_refl D).
Qed.

(** Reading chunk by chunk while the inner loop does not stop, then
    going on with the reads that follow. *)
Lemma read_loop_ready_then (timeout : Z) (chunks : list pystr)
    (tail : list Client.read_event) (buffer : pystr) ys b :
  Client.drain buffer = ([], buffer, None) ->
  Client.drain (buffer ++ List.concat chunks) = (ys, b, None) ->
  Client.read_loop timeout (List.map Client.Ready chunks ++ tail) buffer
  = let '(more, e, rest) := Client.read_loop timeout tail b in
    (ys ++ more, e, rest).
Proof.
  revert buffer ys. induction chunks as [|chunk chunks IH]; intros buffer ys Hb.
  - cbn [List.concat List.map app]. rewrite app_nil_r, Hb.
    intros [= <- <-].
    now destruct (Client.read_loop timeout tail buffer) as [[more e] rest].
  - cbn [List.concat List.map app Client.read_loop].
    destruct chunk as [|c chunk]; [apply IH; assumption|].
    cbn [nonempty negb].
    rewrite (app_assoc buffer (c :: chunk) (List.concat chunks)).
    rewrite (drain_app (buffer ++ c :: chunk) (List.concat chunks)).
    destruct (Client.drain (buffer ++ c :: chunk)) as [[ys1 b1] [e1|]] eqn:D;
      [discriminate|].
    destruct (Client.drain (b1 ++ List.concat chunks))
      as [[ys2 b2] stop2] eqn:D2.
    intros [= <- -> ->].
    rewrite (IH b1 ys2 (drain_rest _ _ _ D) D2).
    destruct (Client.read_loop timeout tail b) as [[more e] rest].
    now rewrite app_assoc.
Qed.

(** X1: turn collection depends on the decoded text, not on where the
    reads cut it, as long as every read decodes on its own.  Two
    sequences of reads that decode to the same text yield the same
    messages and end the same way.  A read whose bytes do not decode on
    their own (as when the cut falls inside a multi-byte character)
    makes the generator raise [UnicodeDecodeError], after the envelopes
    of the complete lines before it have been yielded. *)
Theorem collection_depends_on_the_decoded_text (timeout : Z)
    (sent : option (list pystr)) :
  (forall chunks1 chunks2,
      List.concat chunks1 = List.concat chunks2 ->
      fst (Client.read_responses timeout
             (Client.World sent (Some (List.map Client.Ready chunks1))))
      = fst (Client.read_responses timeout
               (Client.World sent (Some (List.map Client.Ready chunks2)))))
  /\ (forall lines chunks partial rest,
        List.concat chunks = unlines lines ++ partial ->
        Forall (fun l => ~ In 10%N l) lines ->
        ~ In 10%N partial ->
        Forall (fun m => non_terminal_envelope m = true) (decode_lines lines) ->
        fst (Client.read_responses timeout
               (Client.World sent
                  (Some (List.map Client.Ready chunks
                         ++ Client.Undecodable :: rest))))
        = (decode_lines lines, Client.Raised Client.undecodable)).
Proof.
  split.
  - intros chunks1 chunks2 E. unfold Client.read_responses.
    cbn [Client.fifo_out].
    destruct (read_loop_all_ready timeout chunks1 [] eq_refl) as (r1 & ->).
    destruct (read_loop_all_ready timeout chunks2 [] eq_refl) as (r2 & ->).
    cbn [app fst]. now rewrite E.
  - intros lines chunks partial rest Hc Hl Hp Hq.
    unfold Client.read_responses. cbn [Client.fifo_out].
    rewrite (read_loop_ready_then timeout chunks (Client.Undecodable :: rest)
               [] (decode_lines lines) partial eq_refl).
    + cbn [Client.read_loop fst]. now rewrite app_nil_r.
    + cbn [app]. rewrite Hc. now apply drain_unlines_quiet.
Qed.

(** X2: a turn without terminal envelope ends in a timeout.  When the
    reads carry complete lines whose envelopes are all ordinary, and
    maybe the beginning of one more line, every envelope is yielded, the
    unfinished line is not, and the generator raises [TimeoutError]. *)
Theorem turn_without_terminal_times_out (timeout : Z) (w : Client.world)
    (lines chunks : list pystr) (partial : pystr) :
  Client.fifo_out w = Some (List.map Client.Ready chunks) ->
  List.concat chunks = unlines lines ++ partial ->
  Forall (fun l => ~ In 10%N l) lines ->
  ~ In 10%N partial ->
  Forall (fun m => non_terminal_envelope m = true) (decode_lines lines) ->
  fst (Client.read_responses timeout w)
  = (decode_lines lines, Client.Raised Client.response_timeout).
Proof.
  intros Hw Hc Hl Hp Hq. unfold Client.read_responses. rewrite Hw.
  destruct (read_loop_all_ready timeout chunks [] eq_refl) as (r & ->).
  cbn [app fst]. rewrite Hc, drain_unlines_quiet by assumption.
  reflexivity.
Qed.

(** X3: a line that parses to a JSON value other than an object (a
    string, a number, a list) is yielded like any message, and then the
    generator raises [AttributeError]: nothing behind it is read. *)
Theorem non_object_line_kills_the_turn (timeout : Z) (w : Client.world)
    (lines chunks : list pystr) (rest : list Client.read_event)
    (pre post : list value) (m : value) :
  Client.fifo_out w = Some (List.map Client.Ready chunks ++ rest) ->
  List.concat chunks = unlines lines ->
  Forall (fun l => ~ In 10%N l) lines ->
  decode_lines lines = pre ++ m :: post ->
  Forall (fun x => non_terminal_envelope x = true) pre ->
  is_dict m = false ->
  fst (Client.read_responses timeout w)
  = (pre ++ [m], Client.Raised (no_attribute m (py "get"))).
Proof.
  intros Hw Hc Hl Hd Hp Hm. unfold Client.read_responses. rewrite Hw.
  destruct (read_loop_crash timeout lines chunks rest pre post m
              Hc Hl Hd Hp Hm) as (r & ->).
  reflexivity.
Qed.

(** X4: what a read brings in behind the terminal line is lost.  When
    one read carries a whole turn and more text after it, the turn is
    collected as without that text, and the next collection starts at
    the next read: the extra text is never handed to anyone. *)
Theorem text_after_the_terminal_is_dropped (timeout : Z) (w : Client.world)
    (lines : list pystr) (extra : pystr) (rest : list Client.read_event)
    (pre post : list value) (t : value) :
  Client.fifo_out w = Some (Client.Ready (unlines lines ++ extra) :: rest) ->
  Forall (fun l => ~ In 10%N l) lines ->
  decode_lines lines = pre ++ t :: post ->
  Forall (fun m => non_terminal_envelope m = true) pre ->
  is_terminal t = true ->
  Client.read_responses timeout w
  = (pre ++ [t], Client.Returned, Client.World (Client.fifo_in w) (Some rest)).
Proof.
  intros Hw Hl Hd Hp Ht.
  destruct (drain_unlines lines pre post t Hl Hd Hp Ht) as (b & D).
  unfold Client.read_responses. rewrite Hw. cbn [Client.read_loop].
  destruct (unlines lines ++ extra) as [|c chunk] eqn:E.
  - apply app_eq_nil in E as [E _]. rewrite E in D. discriminate.
  - cbn [nonempty negb app]. rewrite <- E, drain_app, D. reflexivity.
Qed.

End FramingFacts.

Section AggregatorErrors.
Context `{Runtime}.

Lemma join_values_bad (parts : list value) (i : Z) (sep : pystr) :
  forallb is_text parts = false ->
  exists e, join_values_from i sep parts = Raise e /\ exn_type e = TypeError.
Proof.
  revert i. induction parts as [|v parts IH]; intros i; [discriminate|].
  cbn [forallb]. destruct v; cbn [is_text andb join_values_from];
    try (intros _; eexists; split; reflexivity).
  intros Hb. destruct parts as [|v' parts]; [discriminate|].
  destruct (IH (i + 1) Hb) as (e & -> & He).
  exists e. now split.
Qed.

(** X5: an item of the list that is not a JSON object makes the
    aggregation fail with [AttributeError], unless a [result] envelope
    comes before it. *)
Theorem extract_text_rejects_non_objects (pre post : list value) (m : value) :
  Forall (fun x => readable x = true) pre ->
  Forall (fun x => has_type "result" x = false) pre ->
  is_dict m = false ->
  Client.extract_text (pre ++ m :: post) = Raise (no_attribute m (py "get")).
Proof.
  intros Hr Hn Hm. unfold Client.extract_text.
  rewrite extract_loop_prefix by assumption.
  destruct m; try discriminate; reflexivity.
Qed.

(** X6: without a [result] envelope, one text fragment that is not a
    string (a [text] that is [null] or a number) makes the aggregation
    fail with [TypeError], whatever the other fragments are. *)
Theorem extract_text_rejects_non_string_fragments (responses : list value) :
  Forall (fun x => readable x = true) responses ->
  Forall (fun x => has_type "result" x = false) responses ->
  forallb is_text (flat_map fragments responses) = false ->
  exists e, Client.extract_text responses = Raise e /\ exn_type e = TypeError.
Proof.
  intros Hr Hn Hb. unfold Client.extract_text.
  rewrite <- (app_nil_r responses).
  rewrite extract_loop_prefix by assumption.
  cbn [app Client.extract_loop]. unfold join_values.
  destruct (join_values_bad _ 0 [] Hb) as (e & -> & He).
  exists e. now split.
Qed.

End AggregatorErrors.

Section CallEffects.
Context `{Runtime}.

Lemma read_responses_fifo_in (timeout : Z) (w : Client.world) :
  Client.fifo_in (snd (Client.read_responses timeout w)) = Client.fifo_in w.
Proof.
  unfold Client.read_responses.
  destruct (Client.fifo_out w) as [events|]; [|reflexivity].
  now destruct (Client.read_loop timeout events []) as [[ys e] rest].
Qed.

Lemma list_read_responses_written (timeout : Z) (w : Client.world) :
  written (snd (Client.list_read_responses timeout w)) = written w.
Proof.
  destruct (Client.list_read_responses timeout w) as [r w'] eqn:L.
  unfold written. cbn [snd].
  now rewrite (list_read_responses_fifo_in _ _ _ _ L).
Qed.

Lemma written_send_clear (w : Client.world) :
  written (Client.send_clear w) = written w ++ [clear_line].
Proof.
  unfold written, Client.send_clear, Client.write_fifo_in, clear_line.
  cbn [Client.fifo_in]. now destruct (Client.fifo_in w).
Qed.

(** X7: what a call writes to the daemon.  Without inbound channel it
    raises [RuntimeError] and writes nothing.  Otherwise it writes the
    prompt line first, and the reset line after it exactly when [clear]
    is asked and the primary turn gave its text: a primary turn that
    fails is never followed by a reset, and nothing else is ever
    written. *)
Theorem call_writes (prompt : pystr) (clear : bool) (timeout : Z)
    (raw_prompt : bool) (w : Client.world) :
  (Client.fifo_in w = None ->
   exists e, Client.call prompt clear timeout raw_prompt w = (Raise e, w)
             /\ exn_type e = RuntimeError)
  /\ (forall ws, Client.fifo_in w = Some ws ->
        written (snd (Client.call prompt clear timeout raw_prompt w))
        = ws ++ prompt_line prompt raw_prompt
             :: (if clear
                    && is_ok (fst (Client.call prompt false timeout raw_prompt w))
                 then [clear_line] else [])).
Proof.
  split.
  - intros Hw. unfold Client.call. rewrite Hw. eexists. split; reflexivity.
  - intros ws Hw. unfold Client.call. rewrite Hw.
    assert (P : written
                  (Client.send_message
                     (if negb raw_prompt then Client.wrap_prompt prompt else prompt) w)
                = ws ++ [prompt_line prompt raw_prompt]).
    { unfold written, Client.send_message, Client.write_fifo_in, prompt_line.
      cbn [Client.fifo_in]. rewrite Hw. now destruct raw_prompt. }
    pose proof (list_read_responses_written timeout
                  (Client.send_message
                     (if negb raw_prompt then Client.wrap_prompt prompt else prompt) w))
      as L1.
    destruct (Client.list_read_responses timeout _) as [[responses|x] w1];
      cbn [snd] in L1.
    2:{ cbn [snd fst is_ok]. rewrite andb_false_r, L1. exact P. }
    destruct (Client.extract_text responses) as [result|x].
    2:{ cbn [snd fst is_ok]. rewrite andb_false_r, L1. exact P. }
    cbn [fst is_ok]. rewrite andb_true_r.
    destruct clear; [|cbn [snd]; rewrite L1; exact P].
    pose proof (list_read_responses_written 5 (Client.send_clear w1)) as L2.
    assert (W : written (Client.send_clear w1)
                = ws ++ [prompt_line prompt raw_prompt; clear_line]).
    { rewrite written_send_clear, L1, P. now rewrite <- app_assoc. }
    destruct (Client.list_read_responses 5 (Client.send_clear w1))
      as [[acks|x] w2]; cbn [snd] in L2.
    + cbn [snd]. now rewrite L2, W.
    + destruct (exn_type x); cbn [snd]; now rewrite L2, W.
Qed.

(** X8: only a timeout is forgiven while the reset is drained.  When
    the primary turn gave its text and what the daemon sends after the
    reset starts (after ordinary envelopes) with a JSON value that is
    not an object, the call raises [AttributeError]: the text of the
    primary turn is lost. *)
Theorem call_fails_on_a_non_object_acknowledgement (prompt : pystr)
    (timeout : Z) (raw_prompt : bool) (w w1 : Client.world) (text : value)
    (lines chunks : list pystr) (rest : list Client.read_event)
    (pre post : list value) (m : value) :
  Client.call prompt false timeout raw_prompt w = (Ok text, w1) ->
  Client.fifo_out w1 = Some (List.map Client.Ready chunks ++ rest) ->
  List.concat chunks = unlines lines ->
  Forall (fun l => ~ In 10%N l) lines ->
  decode_lines lines = pre ++ m :: post ->
  Forall (fun x => non_terminal_envelope x = true) pre ->
  is_dict m = false ->
  fst (Client.call prompt true timeout raw_prompt w)
  = Raise (no_attribute m (py "get")).
Proof.
  intros P Hw Hc Hl Hd Hp Hm. unfold Client.call in *.
  destruct (Client.fifo_in w); [|discriminate].
  destruct (Client.list_read_responses timeout _) as [[responses|x] w'];
    [|discriminate].
  destruct (Client.extract_text responses) as [result|x]; [|discriminate].
  injection P as -> ->.
  unfold Client.list_read_responses, Client.read_responses.
  cbn [Client.send_clear Client.write_fifo_in Client.fifo_out].
  rewrite Hw.
  destruct (read_loop_crash 5 lines chunks rest pre post m Hc Hl Hd Hp Hm)
    as (r & ->).
  destruct m; try discriminate; reflexivity.
Qed.

(** X9: the raw mode of [main] does not look for the daemon.  Without
    inbound channel the normal mode stops with [RuntimeError], nothing
    printed and nothing written; the raw mode writes the prompt line all
    the same, creating the file. *)
Theorem raw_mode_skips_the_daemon_check (a : Client.args) (c : Client.console)
    (w : Client.world) (prompt : pystr) :
  Client.fifo_in w = None ->
  Client.main_prompt a c = Ok prompt ->
  (Client.arg_raw a = false ->
   exists e, Client.main a c w = ([], Raise e, w) /\ exn_type e = RuntimeError)
  /\ (Client.arg_raw a = true ->
      exists more,
        Client.fifo_in (snd (Client.main a c w))
        = Some (prompt_line prompt (Client.arg_raw_prompt a) :: more)).
Proof.
  intros Hw Hp. unfold Client.main. rewrite Hp. split; intros ->.
  - unfold Client.call. rewrite Hw. eexists. split; reflexivity.
  - set (p := if negb (Client.arg_raw_prompt a)
              then Client.wrap_prompt prompt else prompt).
    assert (S1 : Client.fifo_in (Client.send_message p w)
                 = Some [prompt_line prompt (Client.arg_raw_prompt a)]).
    { unfold Client.send_message, Client.write_fifo_in, prompt_line, p.
      cbn [Client.fifo_in]. rewrite Hw.
      now destruct (Client.arg_raw_prompt a). }
    pose proof (read_responses_fifo_in (Client.arg_timeout a)
                  (Client.send_message p w)) as F1.
    destruct (Client.read_responses (Client.arg_timeout a)
                (Client.send_message p w)) as [[ys e] w1].
    cbn [snd] in F1. rewrite S1 in F1.
    destruct e as [|x]; [|cbn [snd]; rewrite F1; now exists []].
    destruct (negb (Client.arg_no_clear a));
      [|cbn [snd]; rewrite F1; now exists []].
    pose proof (read_responses_fifo_in 5 (Client.send_clear w1)) as F2.
    destruct (Client.read_responses 5 (Client.send_clear w1)) as [[acks e] w2].
    cbn [snd] in F2.
    assert (S2 : Client.fifo_in w2
                 = Some [prompt_line prompt (Client.arg_raw_prompt a); clear_line]).
    { rewrite F2. unfold Client.send_clear, Client.write_fifo_in, clear_line.
      cbn [Client.fifo_in]. now rewrite F1. }
    destruct e as [|x]; [cbn [snd]; rewrite S2; now eexists|].
    destruct (exn_type x); cbn [snd]; rewrite S2; now eexists.
Qed.

End CallEffects.

(** * Further properties of the gateway *)

Section ChunkFacts.

Lemma range_chunks (s : pystr) (fuel start : nat) :
  (length s - start <= fuel)%nat ->
  List.concat
    (List.map (fun i => slice s i (i + Server.chunk_size))
              (range_from fuel start (length s) Server.chunk_size))
  = skipn start s.
Proof.
  revert start. induction fuel as [|fuel IH]; intros start Hf.
  - simpl. symmetry. apply skipn_all2. lia.
  - cbn [range_from]. destruct (Nat.ltb_spec start (length s)) as [Hlt|Hge].
    + cbn [List.map List.concat]. rewrite IH by (unfold Server.chunk_size; lia).
      unfold slice.
      replace (start + Server.chunk_size - start)%nat with Server.chunk_size by lia.
      rewrite <- (firstn_skipn Server.chunk_size (skipn start s)) at 2.
      now rewrite skipn_skipn, (Nat.add_comm Server.chunk_size start).
    + simpl. symmetry. apply skipn_all2. lia.
Qed.

Lemma range_chunk_sizes (s : pystr) (fuel start : nat) :
  Forall (fun c => (0 < length c <= Server.chunk_size)%nat)
    (List.map (fun i => slice s i (i + Server.chunk_size))
              (range_from fuel start (length s) Server.chunk_size)).
Proof.
  revert start. induction fuel as [|fuel IH]; intros start; [constructor|].
  cbn [range_from]. destruct (Nat.ltb_spec start (length s)) as [Hlt|Hge];
    [|constructor].
  cbn [List.map]. constructor; [|apply IH].
  unfold slice. rewrite length_firstn, length_skipn.
  unfold Server.chunk_size. lia.
Qed.

Lemma range_length (fuel start stop : nat) :
  (stop - start <= fuel)%nat ->
  length (range_from fuel start stop 20) = ((stop - start + 19) / 20)%nat.
Proof.
  revert start. induction fuel as [|fuel IH]; intros start Hf.
  - replace (stop - start)%nat with 0%nat by lia. reflexivity.
  - cbn [range_from]. destruct (Nat.ltb_spec start stop) as [Hlt|Hge].
    + cbn [length]. rewrite IH by lia.
      destruct (Nat.le_gt_cases 20 (stop - start)) as [Hbig|Hsmall].
      * replace (stop - start + 19)%nat
          with ((stop - (start + 20) + 19) + 1 * 20)%nat by lia.
        rewrite Nat.div_add by lia. lia.
      * replace (stop - (start + 20))%nat with 0%nat by lia.
        replace (stop - start + 19)%nat
          with ((stop - start - 1) + 1 * 20)%nat by lia.
        rewrite Nat.div_add by lia.
        rewrite (Nat.div_small (stop - start - 1) 20) by lia.
        reflexivity.
    + replace (stop - start)%nat with 0%nat by lia. reflexivity.
Qed.

End ChunkFacts.

Section StreamReassembly.
Context {R : Runtime} {G : Server.Gateway}.

Lemma stream_chunks_datas (model : value) (n i : nat) (chunks : list pystr) :
  Server.stream_chunks Server.generate_completion_id Server.time_time
    model n i chunks
  = List.map Server.sse (chunk_datas model n i chunks).
Proof.
  revert i. induction chunks as [|c chunks IH]; intros i; [reflexivity|].
  cbn [Server.stream_chunks chunk_datas List.map]. now rewrite IH.
Qed.

Lemma delta_text_chunk (id : pystr) (t : Z) (model : value) (n i : nat)
    (chunk : pystr) :
  delta_text (Server.chunk_data id t model n i chunk) = chunk.
Proof. destruct chunk; reflexivity. Qed.

Lemma finish_reason_chunk (id : pystr) (t : Z) (model : value) (n i : nat)
    (chunk : pystr) :
  chunk_finish_reason (Server.chunk_data id t model n i chunk)
  = Some (if Z.of_nat i <? Z.of_nat n - 1 then VNone else VStr (py "stop")).
Proof. reflexivity. Qed.

Lemma chunk_datas_texts (model : value) (n i : nat) (chunks : list pystr) :
  List.map delta_text (chunk_datas model n i chunks) = chunks.
Proof.
  revert i. induction chunks as [|c chunks IH]; intros i; [reflexivity|].
  cbn [chunk_datas List.map]. now rewrite delta_text_chunk, IH.
Qed.

Lemma chunk_datas_finish (model : value) (n i : nat) (chunks : list pystr) :
  chunks <> [] ->
  n = (i + length chunks)%nat ->
  exists pre last,
    chunk_datas model n i chunks = pre ++ [last]
    /\ Forall (fun d => chunk_finish_reason d = Some VNone) pre
    /\ chunk_finish_reason last = Some (VStr (py "stop")).
Proof.
  revert i. induction chunks as [|c chunks IH]; intros i Hne Hn; [congruence|].
  destruct chunks as [|c' chunks].
  - exists [], (Server.chunk_data Server.generate_completion_id
                  Server.time_time model n i c).
    split; [reflexivity|]. split; [constructor|].
    rewrite finish_reason_chunk.
    destruct (Z.ltb_spec (Z.of_nat i) (Z.of_nat n - 1)); [|reflexivity].
    simpl in Hn. lia.
  - destruct (IH (S i) ltac:(discriminate) ltac:(simpl in *; lia))
      as (pre & last & E & Hpre & Hlast).
    exists (Server.chunk_data Server.generate_completion_id
              Server.time_time model n i c :: pre), last.
    split; [cbn [chunk_datas app] in *; now rewrite E|].
    split; [|assumption].
    constructor; [|assumption].
    rewrite finish_reason_chunk.
    destruct (Z.ltb_spec (Z.of_nat i) (Z.of_nat n - 1)); [reflexivity|].
    simpl in Hn. lia.
Qed.

(** X10: the simulated stream gives the text back.  For every text the
    events are chunk events followed by the sentinel; the deltas of the
    chunks, put end to end, are the text; no delta is longer than 20
    characters; there are as many chunks as the length divided by 20,
    rounded up (one for the empty text); and the last chunk, and only
    the last, carries the stop reason. *)
Theorem stream_response_reassembles (content : pystr) (model : value) :
  exists datas,
    Server.stream_response content model
    = List.map Server.sse datas ++ [Server.sse_done]
    /\ List.concat (List.map delta_text datas) = content
    /\ Forall (fun d => (length (delta_text d) <= 20)%nat) datas
    /\ length datas = Nat.max 1 ((length content + 19) / 20)
    /\ exists pre last,
         datas = pre ++ [last]
         /\ Forall (fun d => chunk_finish_reason d = Some VNone) pre
         /\ chunk_finish_reason last = Some (VStr (py "stop")).
Proof.
  unfold Server.stream_response.
  pose proof (range_chunks content (length content) 0 ltac:(lia)) as C.
  pose proof (range_chunk_sizes content (length content) 0) as Z.
  pose proof (range_length (length content) 0 (length content) ltac:(lia)) as L.
  rewrite Nat.sub_0_r in L. rewrite skipn_O in C.
  fold (range (length content) Server.chunk_size) in C, Z.
  fold (Server.split_chunks content) in C, Z.
  assert (L' : length (Server.split_chunks content)
               = ((length content + 19) / 20)%nat).
  { unfold Server.split_chunks, range. now rewrite length_map. }
  clear L.
  set (chunks := match Server.split_chunks content with
                 | [] => [[]]
                 | _ => Server.split_chunks content
                 end).
  assert (Hc : List.concat chunks = content).
  { unfold chunks. destruct (Server.split_chunks content); [|exact C].
    simpl in C. now rewrite <- C. }
  assert (Hz : Forall (fun c => (length c <= 20)%nat) chunks).
  { unfold chunks. destruct (Server.split_chunks content) eqn:E.
    - repeat constructor.
    - eapply Forall_impl; [|exact Z]. unfold Server.chunk_size.
      intros c Hcz. simpl in Hcz. lia. }
  assert (Hl : length chunks = Nat.max 1 ((length content + 19) / 20)).
  { unfold chunks. destruct (Server.split_chunks content) eqn:E.
    - rewrite <- L'. reflexivity.
    - rewrite <- L'. reflexivity. }
  assert (Hne : chunks <> []).
  { unfold chunks. destruct (Server.split_chunks content); discriminate. }
  exists (chunk_datas model (length chunks) 0 chunks).
  split; [now rewrite stream_chunks_datas|].
  rewrite chunk_datas_texts. split; [exact Hc|]. split.
  - apply (Forall_map delta_text (fun c => (length c <= 20)%nat)).
    now rewrite chunk_datas_texts.
  - split.
    + rewrite <- Hl.
      rewrite <- (length_map delta_text (chunk_datas _ _ _ _)).
      now rewrite chunk_datas_texts.
    + now apply chunk_datas_finish.
Qed.

End StreamReassembly.

Section HandlerFacts.
Context {R : Runtime} {G : Server.Gateway}.

(** Every way the [try] block can answer. *)
Lemma handler_outcomes (req : Server.request) :
  match Server.handle_chat_completions req with
  | Raise _ => True
  | Ok (Server.JsonResponse body status) =>
      (status = 200
       /\ exists content model,
            body = Server.create_response content model VNone 0 0)
      \/ (status = 400 /\ exists msg, error_message body = Some (VStr msg))
  | Ok (Server.StreamResponse events mimetype _) =>
      mimetype = py "text/event-stream"
      /\ exists content model, events = Server.stream_response content model
  end.
Proof.
  unfold Server.handle_chat_completions.
  destruct (Server.get_json req) as [data|x]; cbn [bind]; [|exact I].
  destruct (negb (truthy data)).
  { right. split; [reflexivity|]. eexists. reflexivity. }
  destruct (get data (py "model") _) as [model_name|x]; cbn [bind]; [|exact I].
  destruct (get data (py "messages") _) as [messages|x]; cbn [bind]; [|exact I].
  destruct (get data (py "stream") _) as [stream|x]; cbn [bind]; [|exact I].
  destruct (get data (py "response_format") _) as [rf|x]; cbn [bind];
    [|exact I].
  destruct (get data (py "context") _) as [context|x]; cbn [bind]; [|exact I].
  destruct (negb (truthy messages)).
  { right. split; [reflexivity|]. eexists. reflexivity. }
  destruct (Server.MODEL_MAP_get model_name) as [cfg|x]; cbn [bind]; [|exact I].
  destruct (negb (truthy cfg)).
  { right. split; [reflexivity|]. eexists. reflexivity. }
  destruct (Server.getitem cfg (py "agent")) as [agent|x]; cbn [bind];
    [|exact I].
  destruct (Server.getitem cfg (py "model")) as [model|x]; cbn [bind];
    [|exact I].
  destruct (Server.messages_to_prompt messages) as [prompt|x]; cbn [bind];
    [|exact I].
  destruct (Server.extract_json_schema rf) as [schema|x]; cbn [bind];
    [|exact I].
  destruct (truthy stream).
  - split; [reflexivity|]. eexists. eexists. reflexivity.
  - left. split; [reflexivity|]. eexists. eexists. reflexivity.
Qed.

Lemma startswith_prefix (s p : pystr) :
  startswith s p = true -> s = p ++ skipn (length p) s.
Proof.
  revert s. induction p as [|x p IH]; intros s; [reflexivity|].
  destruct s as [|y s]; [discriminate|]. cbn [startswith length skipn app].
  intros E. apply andb_true_iff in E as [E1 E2].
  apply N.eqb_eq in E1. subst y. f_equal. now apply IH.
Qed.

Lemma startswith_app (p s : pystr) : startswith (p ++ s) p = true.
Proof.
  induction p as [|x p IH]; [now destruct s|].
  cbn [app startswith]. now rewrite N.eqb_refl.
Qed.

(** X11: authentication.  The check passes exactly when no key is
    configured or the Authorization header is ["Bearer "] followed by
    the key; and the handler answers 401 exactly when the check fails:
    no later step produces that status. *)
Theorem authentication_decides_401 (req : Server.request) :
  (Server.check_auth req = true
   <-> Server.API_KEY = []
       \/ Server.authorization req = Some (py "Bearer " ++ Server.API_KEY))
  /\ (Server.status_code (Server.chat_completions req) = 401
      <-> Server.check_auth req = false).
Proof.
  split.
  - unfold Server.check_auth. destruct Server.API_KEY as [|k key] eqn:K.
    { cbn [nonempty negb]. split; [now left|reflexivity]. }
    cbn [nonempty negb]. split.
    + destruct (Server.authorization req) as [auth|].
      * destruct (startswith auth (py "Bearer ")) eqn:S; [|discriminate].
        intros E. apply str_eqb_eq in E. right.
        apply startswith_prefix in S.
        change (length (py "Bearer ")) with 7%nat in S.
        rewrite E in S. now rewrite S.
      * change (startswith [] (py "Bearer ")) with false. discriminate.
    + intros [E|E]; [discriminate|]. rewrite E.
      rewrite startswith_app.
      change (skipn 7 (py "Bearer " ++ k :: key)) with (k :: key).
      apply str_eqb_refl.
  - unfold Server.chat_completions.
    destruct (Server.check_auth req); cbn [negb].
    + split; [|discriminate].
      pose proof (handler_outcomes req) as O.
      destruct (Server.handle_chat_completions req) as [[body st|ev mt hd]|e];
        cbn [Server.status_code]; try discriminate.
      destruct O as [[-> _]|[-> _]]; discriminate.
    + split; reflexivity.
Qed.

(** X12: every answer has one of four shapes: an event stream made by
    [stream_response]; status 200 with a completion object made by
    [create_response]; or status 400, 401 or 500 with an error object
    that carries a message string. *)
Theorem every_answer_is_well_formed (req : Server.request) :
  match Server.chat_completions req with
  | Server.JsonResponse body status =>
      (status = 200
       /\ exists content model,
            body = Server.create_response content model VNone 0 0)
      \/ ((status = 400 \/ status = 401 \/ status = 500)
          /\ exists msg, error_message body = Some (VStr msg))
  | Server.StreamResponse events mimetype _ =>
      mimetype = py "text/event-stream"
      /\ exists content model, events = Server.stream_response content model
  end.
Proof.
  unfold Server.chat_completions.
  destruct (negb (Server.check_auth req)).
  { right. split; [tauto|]. eexists. reflexivity. }
  pose proof (handler_outcomes req) as O.
  destruct (Server.handle_chat_completions req) as [[body st|ev mt hd]|e].
  - destruct O as [O|[-> O]]; [now left|]. right. split; [tauto|exact O].
  - exact O.
  - right. split; [tauto|]. eexists. reflexivity.
Qed.

(** An authenticated request with a body and messages, for a model of
    the table, whose messages or response format cannot be translated,
    is answered with status 500 and the text of the exception. *)
Lemma untranslatable_is_internal_error (req : Server.request)
    (d : list (pystr * value)) (cfg : value) (e : exn) :
  valid_request req d ->
  Server.MODEL_MAP_get (model_of d) = Ok cfg ->
  truthy cfg = true ->
  Server.messages_to_prompt (messages_of d) = Raise e ->
  Server.chat_completions req = Server.JsonResponse (internal_error e) 500.
Proof.
  intros (Ha & Hj & Hm) Hc Ht Hp.
  destruct (routing_entry _ _ Hc Ht) as (agent & model & Hga & Hgm).
  unfold Server.chat_completions, Server.handle_chat_completions.
  rewrite Ha, Hj. cbn [negb bind get].
  rewrite (messages_body_nonempty d Hm). cbn [negb].
  fold (model_of d) (messages_of d) (stream_of d) (response_format_of d)
       (context_of d).
  rewrite Hm. cbn [negb]. rewrite Hc. cbn [bind]. rewrite Ht. cbn [negb].
  rewrite Hga. cbn [bind]. rewrite Hgm. cbn [bind].
  rewrite Hp. reflexivity.
Qed.

(** X13: a body that is JSON but not an object.  An authenticated
    request whose body is a non-empty list or string, a number other
    than zero or [true] is answered with status 500 and the text of the
    [AttributeError], not with status 400. *)
Theorem non_object_body_is_internal_error (req : Server.request)
    (data : value) :
  Server.check_auth req = true ->
  Server.get_json req = Ok data ->
  truthy data = true ->
  is_dict data = false ->
  Server.chat_completions req
  = Server.JsonResponse (internal_error (no_attribute data (py "get"))) 500.
Proof.
  intros Ha Hj Ht Hd.
  unfold Server.chat_completions, Server.handle_chat_completions.
  rewrite Ha, Hj. cbn [negb bind]. rewrite Ht. cbn [negb].
  destruct data; try discriminate; reflexivity.
Qed.

(** X14: messages that are not an array.  A valid request for a model
    of the table whose [messages] is a string, an object, a number or
    [true] is answered with status 500 and error type
    ["internal_error"]. *)
Theorem non_array_messages_are_internal_error (req : Server.request)
    (d : list (pystr * value)) (cfg : value) :
  valid_request req d ->
  Server.MODEL_MAP_get (model_of d) = Ok cfg ->
  truthy cfg = true ->
  is_list (messages_of d) = false ->
  exists body,
    Server.chat_completions req = Server.JsonResponse body 500
    /\ error_type body = Some (VStr (py "internal_error")).
Proof.
  intros Hv Hc Ht Hl.
  assert (E : exists e, Server.messages_to_prompt (messages_of d) = Raise e).
  { destruct Hv as (_ & _ & Hm). unfold Server.messages_to_prompt.
    destruct (messages_of d) as [|b|z|f|s|l|kv]; try discriminate;
      try (eexists; reflexivity).
    - destruct s as [|c s]; [discriminate|]. eexists. reflexivity.
    - destruct kv as [|[k v] kv]; [discriminate|]. eexists. reflexivity. }
  destruct E as (e & E).
  rewrite (untranslatable_is_internal_error req d cfg e Hv Hc Ht E).
  eexists. split; reflexivity.
Qed.

(** X15: a gateway dedicated to one agent.  With a forced agent, a
    valid request for any model of the table goes to the forced agent,
    without sub-model, and the answer still names the model that was
    asked for. *)
Theorem forced_agent_overrides_routing (req : Server.request)
    (d : list (pystr * value)) (cfg : value) (prompt : pystr) (schema : value) :
  nonempty Server.FORCE_AGENT = true ->
  valid_request req d ->
  translates d prompt schema ->
  Server.MODEL_MAP_get (model_of d) = Ok cfg ->
  truthy cfg = true ->
  Server.chat_completions req
  = reply (stream_of d)
      (Server.call_agent prompt (VStr Server.FORCE_AGENT) VNone
         (context_of d) schema 300)
      (model_of d).
Proof.
  intros Hf Hv Ht Hc Hcfg.
  destruct (routing_entry _ _ Hc Hcfg) as (agent & model & Hga & Hgm).
  rewrite (chat_completions_routed req d cfg agent model prompt schema)
    by assumption.
  now rewrite Hf.
Qed.

Lemma known_model_is_not_rejected (req : Server.request)
    (d : list (pystr * value)) (cfg : value) :
  valid_request req d ->
  Server.MODEL_MAP_get (model_of d) = Ok cfg ->
  truthy cfg = true ->
  Server.status_code (Server.chat_completions req) <> 400.
Proof.
  intros Hv Hc Ht.
  destruct (Server.messages_to_prompt (messages_of d)) as [prompt|e] eqn:Hp.
  2:{ rewrite (untranslatable_is_internal_error req d cfg e Hv Hc Ht Hp).
      discriminate. }
  destruct (routing_entry _ _ Hc Ht) as (agent & model & Hga & Hgm).
  destruct (Server.extract_json_schema (response_format_of d))
    as [schema|e] eqn:Hs.
  - rewrite (chat_completions_routed req d cfg agent model prompt schema
               Hv (conj Hp Hs) Hc Ht Hga Hgm).
    unfold reply. destruct (truthy (stream_of d)); discriminate.
  - destruct Hv as (Ha & Hj & Hm).
    unfold Server.chat_completions, Server.handle_chat_completions.
    rewrite Ha, Hj. cbn [negb bind get].
    rewrite (messages_body_nonempty d Hm). cbn [negb].
    fold (model_of d) (messages_of d) (stream_of d) (response_format_of d)
         (context_of d).
    rewrite Hm. cbn [negb]. rewrite Hc. cbn [bind]. rewrite Ht. cbn [negb].
    rewrite Hga. cbn [bind]. rewrite Hgm. cbn [bind].
    rewrite Hp. cbn [bind]. rewrite Hs. discriminate.
Qed.

(** X16: the model list and the routing table agree.  Every model that
    [/v1/models] lists is a key of the routing table, so a valid request
    for a listed model is never rejected with status 400. *)
Theorem listed_models_are_routable (body : value) (entries : list value)
    (entry : value) :
  Server.list_models = Server.JsonResponse body 200 ->
  field "data" (Some body) = Some (VList entries) ->
  In entry entries ->
  is_routing_key (model_id entry) = true
  /\ forall req d,
       valid_request req d ->
       lookup d (py "model") = Some (model_id entry) ->
       Server.status_code (Server.chat_completions req) <> 400.
Proof.
  intros [= <-] [= <-] Hin.
  assert (K : is_routing_key (model_id entry) = true).
  { unfold Server.AVAILABLE_MODELS in Hin. cbn [In] in Hin.
    repeat (destruct Hin as [<-|Hin]; [reflexivity|]). contradiction. }
  split; [exact K|].
  intros req d Hv Hm.
  assert (M : model_of d = model_id entry)
    by (unfold model_of, dict_get; now rewrite Hm).
  destruct (model_id entry) as [| | | |s| |] eqn:E; try discriminate.
  unfold is_routing_key in K.
  destruct (lookup Server.MODEL_MAP s) as [cfg|] eqn:L; [|discriminate].
  apply (known_model_is_not_rejected req d cfg Hv).
  - rewrite M. unfold Server.MODEL_MAP_get, dict_get. now rewrite L.
  - destruct (routing_entry (VStr s) cfg) as (a & m & Ha & _).
    + unfold Server.MODEL_MAP_get, dict_get. now rewrite L.
    + revert L. unfold Server.MODEL_MAP. cbn [lookup].
      repeat match goal with
             | |- context [if str_eqb ?k s then _ else _] =>
                 destruct (str_eqb k s); [now intros [= <-]|]
             end.
      discriminate.
    + destruct cfg; try discriminate. destruct d0; [discriminate|reflexivity].
Qed.

End HandlerFacts.

Section TranslationFacts.
Context {R : Runtime}.

Lemma join_values_strings (sep : pystr) (i : Z) (texts : list pystr) :
  join_values_from i sep (List.map VStr texts) = Ok (join sep texts).
Proof.
  revert i. induction texts as [|s texts IH]; intros i; [reflexivity|].
  destruct texts as [|s' texts]; [reflexivity|].
  change (List.map VStr (s :: s' :: texts))
    with (VStr s :: List.map VStr (s' :: texts)).
  cbn [join_values_from]. rewrite IH.
  reflexivity.
Qed.

Lemma collect_texts_spec (content texts : list value) :
  Server.collect_texts content texts = texts ++ flat_map content_texts content.
Proof.
  revert texts. induction content as [|item content IH]; intros texts.
  - simpl. now rewrite app_nil_r.
  - cbn [Server.collect_texts flat_map].
    destruct item as [| | | |s| |d]; cbn [content_texts app]; try apply IH.
    + rewrite IH. now rewrite <- app_assoc.
    + destruct (is_str (dict_get d (py "type") VNone) (py "text"));
        rewrite IH; [now rewrite <- app_assoc|reflexivity].
Qed.

(** X17: content given as an array.  The text of the array is the text
    of its text blocks and of its bare strings, in order, joined by
    newlines; blocks of any other type (images, say) and other items
    contribute nothing, not even an empty line. *)
Theorem extract_content_joins_text_blocks (items : list value) :
  forallb is_text (flat_map content_texts items) = true ->
  Server.extract_content (VList items)
  = Ok (join nl (List.map text_of (flat_map content_texts items))).
Proof.
  intros Ht. cbn [Server.extract_content]. unfold join_values.
  rewrite collect_texts_spec. cbn [app].
  rewrite (texts_are_strings _ Ht) at 1.
  apply join_values_strings.
Qed.

Lemma prompt_parts_plain (msgs : list value) (parts : list pystr) :
  Forall (fun m => plain_message m = true) msgs ->
  Server.prompt_parts msgs parts = Ok (parts ++ flat_map plain_paragraph msgs).
Proof.
  intros Hp. revert parts. induction Hp as [|m msgs Hm _ IH]; intros parts.
  - simpl. now rewrite app_nil_r.
  - destruct m as [| | | | | |d]; try discriminate.
    cbn [plain_message] in Hm.
    cbn [Server.prompt_parts get bind flat_map plain_paragraph].
    destruct (dict_get d (py "content") (VStr [])) as [| | | |s| |];
      try discriminate.
    cbn [Server.extract_content bind text_of]. unfold paragraph.
    destruct (is_str (dict_get d (py "role") (VStr (py "user"))) (py "system")).
    { rewrite IH. now rewrite <- app_assoc. }
    destruct (is_str (dict_get d (py "role") (VStr (py "user"))) (py "user")).
    { rewrite IH. now rewrite <- app_assoc. }
    destruct (is_str (dict_get d (py "role") (VStr (py "user"))) (py "assistant")).
    { rewrite IH. now rewrite <- app_assoc. }
    now rewrite IH.
Qed.

(** X18: flattening a history of messages with string content.  The
    prompt is the paragraphs of the messages joined by blank lines: a
    system message gives ["[System]: "] and its text, a user message
    (or one without role) its text, an assistant message
    ["[Previous response]: "] and its text; a message with any other
    role (a tool message, say) is dropped without a trace, and a
    message without content gives an empty paragraph. *)
Theorem messages_to_prompt_paragraphs (msgs : list value) :
  Forall (fun m => plain_message m = true) msgs ->
  Server.messages_to_prompt (VList msgs)
  = Ok (join (nl ++ nl) (flat_map plain_paragraph msgs)).
Proof.
  intros Hp. unfold Server.messages_to_prompt. cbn [iterate bind].
  now rewrite prompt_parts_plain.
Qed.

(** X19: when a schema is passed on.  [extract_json_schema] gives a
    string only for a response format that is an object of type
    ["json_schema"] whose [json_schema] is an object with a [schema]
    that is not empty, and the string is that schema serialized. *)
Theorem json_schema_only_from_json_schema_format (response_format : value)
    (s : pystr) :
  Server.extract_json_schema response_format = Ok (VStr s) ->
  exists d js schema,
    response_format = VDict d
    /\ is_str (dict_get d (py "type") VNone) (py "json_schema") = true
    /\ dict_get d (py "json_schema") (VDict []) = VDict js
    /\ lookup js (py "schema") = Some schema
    /\ truthy schema = true
    /\ s = json_dumps schema.
Proof.
  unfold Server.extract_json_schema.
  destruct (negb (truthy response_format)); [discriminate|].
  destruct response_format as [| | | | | |d]; try discriminate.
  cbn [get bind].
  destruct (is_str (dict_get d (py "type") VNone) (py "json_schema")) eqn:T;
    cbn [negb]; [|discriminate].
  destruct (dict_get d (py "json_schema") (VDict [])) as [| | | | | |js] eqn:J;
    try discriminate.
  cbn [get bind]. unfold dict_get at 1 2.
  destruct (lookup js (py "schema")) as [schema|] eqn:L; [|discriminate].
  destruct (truthy schema) eqn:Ts; [|discriminate].
  intros [= <-]. exists d, js, schema. repeat split; assumption.
Qed.

End TranslationFacts.

Section AgentFacts.
Context {G : Server.Gateway}.

(** X20: what the agent call returns, by the way the run it makes
    ends.  When the run exits with status 0 it is the standard output,
    stripped.  In every other case it is a text that begins with
    ["Error: "]: an exit status other than 0, a timeout, an exception
    while starting the process.  When the run exits with a status other
    than 0 and nothing but blanks on standard error, the text is
    ["Error: Agent execution failed"]. *)
Theorem call_agent_reports_every_failure (prompt : pystr)
    (agent model context schema : value) (timeout : Z) :
  match Server.subprocess_run
          (agent_command prompt agent model context schema) timeout
          (agent_cwd context) with
  | Server.Completed returncode stdout stderr =>
      (returncode = 0 ->
       Server.call_agent prompt agent model context schema timeout
       = strip stdout)
      /\ (returncode <> 0 ->
          startswith
            (Server.call_agent prompt agent model context schema timeout)
            (py "Error: ") = true
          /\ (strip stderr = [] ->
              Server.call_agent prompt agent model context schema timeout
              = py "Error: Agent execution failed"))
  | _ =>
      startswith
        (Server.call_agent prompt agent model context schema timeout)
        (py "Error: ") = true
  end.
Proof.
  rewrite call_agent_outcome.
  destruct (Server.subprocess_run _ timeout _) as [rc out err| |e].
  - split.
    + intros ->. reflexivity.
    + intros Hrc. apply Z.eqb_neq in Hrc. rewrite Hrc. cbn [negb]. split.
      * apply startswith_app.
      * intros ->. reflexivity.
  - reflexivity.
  - apply startswith_app.
Qed.

End AgentFacts.

Section ClientExtraExamples.
#[local] Existing Instance Examples.runtime.

(** X1, witness: the transcript in two reads and in one; and an
    envelope followed by a read that does not decode. *)
Lemma collection_depends_on_the_decoded_text_witness :
  fst (Client.read_responses 120
         (Client.World (Some [])
            (Some (List.map Client.Ready Examples.transcript_chunks))))
  = fst (Client.read_responses 120
           (Client.World (Some [])
              (Some (List.map Client.Ready [unlines Examples.transcript]))))
  /\ fst (Client.read_responses 120
            (Client.World (Some [])
               (Some (List.map Client.Ready
                        [ unlines [Examples.system_line] ++ [] ]
                      ++ Client.Undecodable :: []))))
     = (decode_lines [Examples.system_line],
        Client.Raised Client.undecodable).
Proof.
  split.
  - apply (proj1 (collection_depends_on_the_decoded_text 120 (Some []))
             Examples.transcript_chunks [unlines Examples.transcript]).
    reflexivity.
  - apply (proj2 (collection_depends_on_the_decoded_text 120 (Some []))
             [Examples.system_line] [ unlines [Examples.system_line] ++ [] ]
             [] []).
    + reflexivity.
    + repeat constructor; apply no_newline_check; reflexivity.
    + intros [].
    + repeat constructor.
Defined.

(** X2, witness: two envelopes and the first ten characters of a
    third line. *)
Lemma turn_without_terminal_times_out_witness :
  fst (Client.read_responses 120
         (Client.World (Some [])
            (Some (List.map Client.Ready
                     [ unlines [Examples.system_line; Examples.assistant_line]
                       ++ firstn 10 Examples.result_line ]))))
  = ([Examples.system_msg; Examples.assistant_msg],
     Client.Raised Client.response_timeout).
Proof.
  change [Examples.system_msg; Examples.assistant_msg]
    with (decode_lines [Examples.system_line; Examples.assistant_line]).
  apply (turn_without_terminal_times_out 120
           (Client.World (Some [])
              (Some (List.map Client.Ready
                       [ unlines [Examples.system_line; Examples.assistant_line]
                         ++ firstn 10 Examples.result_line ])))
           [Examples.system_line; Examples.assistant_line]
           [ unlines [Examples.system_line; Examples.assistant_line]
             ++ firstn 10 Examples.result_line ]
           (firstn 10 Examples.result_line)).
  - reflexivity.
  - reflexivity.
  - repeat constructor; apply no_newline_check; reflexivity.
  - apply no_newline_check; reflexivity.
  - repeat constructor.
Defined.

(** X3, witness: a JSON string between an envelope and the result. *)
Lemma non_object_line_kills_the_turn_witness :
  fst (@Client.read_responses Examples.runtime_with_strings 120
         (Client.World (Some [])
            (Some (List.map Client.Ready
                     [ unlines [Examples.system_line; Examples.string_line;
                                Examples.result_line] ] ++ []))))
  = ([Examples.system_msg] ++ [VStr (py "ok")],
     Client.Raised (no_attribute (VStr (py "ok")) (py "get"))).
Proof.
  apply (@non_object_line_kills_the_turn Examples.runtime_with_strings 120 _
           [Examples.system_line; Examples.string_line; Examples.result_line]
           [ unlines [Examples.system_line; Examples.string_line;
                      Examples.result_line] ]
           [] [Examples.system_msg] [Examples.result_msg] (VStr (py "ok"))).
  - reflexivity.
  - reflexivity.
  - repeat constructor; apply no_newline_check; reflexivity.
  - reflexivity.
  - repeat constructor.
  - reflexivity.
Defined.

(** X4, witness: the result and a whole further line in one read. *)
Lemma text_after_the_terminal_is_dropped_witness :
  Client.read_responses 120
    (Client.World (Some [])
       (Some [ Client.Ready (unlines [Examples.result_line]
                             ++ (Examples.delta_line ++ nl));
               Client.NotReady ]))
  = ([] ++ [Examples.result_msg], Client.Returned,
     Client.World (Some []) (Some [Client.NotReady])).
Proof.
  apply (text_after_the_terminal_is_dropped 120
           (Client.World (Some [])
              (Some [ Client.Ready (unlines [Examples.result_line]
                                    ++ (Examples.delta_line ++ nl));
                      Client.NotReady ]))
           [Examples.result_line] (Examples.delta_line ++ nl)
           [Client.NotReady] [] [] Examples.result_msg).
  - reflexivity.
  - repeat constructor; apply no_newline_check; reflexivity.
  - reflexivity.
  - constructor.
  - reflexivity.
Defined.

(** X5, witness: a bare string before the result. *)
Lemma extract_text_rejects_non_objects_witness :
  Client.extract_text
    ([Examples.assistant_msg] ++ VStr (py "x") :: [Examples.result_msg])
  = Raise (no_attribute (VStr (py "x")) (py "get")).
Proof.
  apply (extract_text_rejects_non_objects [Examples.assistant_msg]
           [Examples.result_msg] (VStr (py "x"))).
  - repeat constructor.
  - repeat constructor.
  - reflexivity.
Defined.

(** X6, witness: a text block whose text is [null]. *)
Lemma extract_text_rejects_non_string_fragments_witness :
  exists e,
    Client.extract_text
      [ Examples.assistant_msg;
        VDict [ (py "type", VStr (py "content_block_delta"));
                (py "delta", VDict [ (py "type", VStr (py "text_delta"));
                                     (py "text", VNone) ]) ] ]
    = Raise e
    /\ exn_type e = TypeError.
Proof.
  apply (extract_text_rejects_non_string_fragments
           [ Examples.assistant_msg;
             VDict [ (py "type", VStr (py "content_block_delta"));
                     (py "delta", VDict [ (py "type", VStr (py "text_delta"));
                                          (py "text", VNone) ]) ] ]).
  - repeat constructor.
  - repeat constructor.
  - reflexivity.
Defined.

(** X7, witness: no daemon; and a daemon that answers, with the reset
    asked for. *)
Lemma call_writes_witness :
  (exists e,
      Client.call (py "hi") true 120 false Examples.no_daemon_world
      = (Raise e, Examples.no_daemon_world)
      /\ exn_type e = RuntimeError)
  /\ written (snd (Client.call (py "hi") true 120 false
                     Examples.silent_clear_world))
     = [] ++ [prompt_line (py "hi") false; clear_line].
Proof.
  split.
  - apply (proj1 (call_writes (py "hi") true 120 false
                    Examples.no_daemon_world)).
    reflexivity.
  - exact (proj2 (call_writes (py "hi") true 120 false
                    Examples.silent_clear_world) [] eq_refl).
Defined.

(** X8, witness: the daemon acknowledges the reset with a JSON string. *)
Lemma call_fails_on_a_non_object_acknowledgement_witness :
  fst (@Client.call Examples.runtime_with_strings (py "hi") true 120 false
         Examples.string_ack_world)
  = Raise (no_attribute (VStr (py "ok")) (py "get")).
Proof.
  assert (P : @Client.call Examples.runtime_with_strings (py "hi") false 120
                false Examples.string_ack_world
              = (Ok (VStr (py "Hello")),
                 Client.World
                   (Some [ @prompt_line Examples.runtime_with_strings
                             (py "hi") false ])
                   (Some [ Client.Ready (Examples.string_line ++ nl) ])))
    by reflexivity.
  apply (@call_fails_on_a_non_object_acknowledgement
           Examples.runtime_with_strings (py "hi") 120 false
           Examples.string_ack_world _ _ [Examples.string_line]
           [Examples.string_line ++ nl] [] [] [] (VStr (py "ok")) P).
  - reflexivity.
  - reflexivity.
  - repeat constructor; apply no_newline_check; reflexivity.
  - reflexivity.
  - constructor.
  - reflexivity.
Defined.

(** X9, witness: [main] with the prompt ["hi"] and no daemon, in normal
    and in raw mode. *)
Lemma raw_mode_skips_the_daemon_check_witness :
  (exists e,
      Client.main (Client.Args (Some (py "hi")) None false false 120 false)
        Examples.no_console Examples.no_daemon_world
      = ([], Raise e, Examples.no_daemon_world)
      /\ exn_type e = RuntimeError)
  /\ exists more,
       Client.fifo_in
         (snd (Client.main
                 (Client.Args (Some (py "hi")) None false false 120 true)
                 Examples.no_console Examples.no_daemon_world))
       = Some (prompt_line (py "hi") false :: more).
Proof.
  split.
  - apply (proj1 (raw_mode_skips_the_daemon_check
                    (Client.Args (Some (py "hi")) None false false 120 false)
                    Examples.no_console Examples.no_daemon_world (py "hi")
                    eq_refl eq_refl)).
    reflexivity.
  - apply (proj2 (raw_mode_skips_the_daemon_check
                    (Client.Args (Some (py "hi")) None false false 120 true)
                    Examples.no_console Examples.no_daemon_world (py "hi")
                    eq_refl eq_refl)).
    reflexivity.
Defined.

End ClientExtraExamples.

Section GatewayExtraExamples.
#[local] Existing Instance Examples.runtime.

(** X11, witness: a gateway with the key [s3cret]; the right header
    passes, and a request without header is answered 401. *)
Lemma authentication_decides_401_witness :
  @Server.check_auth Examples.locked
    (Server.Request (Some (py "Bearer s3cret")) (Ok VNone)) = true
  /\ Server.status_code
       (@Server.chat_completions _ Examples.locked
          (Examples.post [ (py "messages", VList [Examples.user_message "Hi"]) ]))
     = 401.
Proof.
  split.
  - apply (proj1 (@authentication_decides_401 _ Examples.locked
                    (Server.Request (Some (py "Bearer s3cret")) (Ok VNone)))).
    right. reflexivity.
  - apply (proj2 (@authentication_decides_401 _ Examples.locked
                    (Examples.post
                       [ (py "messages", VList [Examples.user_message "Hi"]) ]))).
    reflexivity.
Defined.

(** X13, witness: the body [[1]]. *)
Lemma non_object_body_is_internal_error_witness :
  @Server.chat_completions _ Examples.quiet
    (Server.Request None (Ok (VList [VInt 1])))
  = Server.JsonResponse
      (internal_error (no_attribute (VList [VInt 1]) (py "get"))) 500.
Proof.
  apply (non_object_body_is_internal_error (G := Examples.quiet)
           (Server.Request None (Ok (VList [VInt 1]))) (VList [VInt 1]));
    reflexivity.
Defined.

(** X14, witness: [messages] given as the string ["hello"]. *)
Lemma non_array_messages_are_internal_error_witness :
  exists body,
    @Server.chat_completions _ Examples.quiet
      (Examples.post [ (py "messages", VStr (py "hello")) ])
    = Server.JsonResponse body 500
    /\ error_type body = Some (VStr (py "internal_error")).
Proof.
  apply (non_array_messages_are_internal_error (G := Examples.quiet)
           (Examples.post [ (py "messages", VStr (py "hello")) ])
           [ (py "messages", VStr (py "hello")) ]
           (Server.route "claude" VNone)).
  - repeat split.
  - reflexivity.
  - reflexivity.
  - reflexivity.
Defined.

(** X15, witness: a gateway dedicated to [codex], asked for
    ["aider-gpt4"]. *)
Lemma forced_agent_overrides_routing_witness :
  @Server.chat_completions _ Examples.forced
    (Examples.post [ (py "model", VStr (py "aider-gpt4"));
                     (py "messages", VList [Examples.user_message "Hi"]) ])
  = @reply _ Examples.forced (VBool false)
      (@Server.call_agent Examples.forced (py "Hi") (VStr (py "codex")) VNone
         VNone VNone 300)
      (VStr (py "aider-gpt4")).
Proof.
  apply (forced_agent_overrides_routing (G := Examples.forced)
           (Examples.post [ (py "model", VStr (py "aider-gpt4"));
                            (py "messages", VList [Examples.user_message "Hi"]) ])
           [ (py "model", VStr (py "aider-gpt4"));
             (py "messages", VList [Examples.user_message "Hi"]) ]
           (Server.route "aider" (VStr (py "gpt-4"))) (py "Hi") VNone).
  - reflexivity.
  - repeat split.
  - repeat split.
  - reflexivity.
  - reflexivity.
Defined.

(** X16, witness: the listed model ["codex"]. *)
Lemma listed_models_are_routable_witness :
  is_routing_key (VStr (py "codex")) = true
  /\ Server.status_code
       (@Server.chat_completions _ Examples.quiet
          (Examples.post [ (py "model", VStr (py "codex"));
                           (py "messages", VList [Examples.user_message "Hi"]) ]))
     <> 400.
Proof.
  destruct (listed_models_are_routable (G := Examples.quiet)
              _ Server.AVAILABLE_MODELS (Server.available "codex" "openai")
              eq_refl eq_refl)
    as (K & S).
  { cbn. tauto. }
  split; [exact K|].
  apply (S (Examples.post [ (py "model", VStr (py "codex"));
                            (py "messages", VList [Examples.user_message "Hi"]) ])
           [ (py "model", VStr (py "codex"));
             (py "messages", VList [Examples.user_message "Hi"]) ]).
  - repeat split.
  - reflexivity.
Defined.

(** X17, witness: a text block, an image block and a bare string. *)
Lemma extract_content_joins_text_blocks_witness :
  Server.extract_content
    (VList [ VDict [ (py "type", VStr (py "text")); (py "text", VStr (py "a")) ];
             VDict [ (py "type", VStr (py "image_url")) ];
             VStr (py "b") ])
  = Ok (py "a" ++ nl ++ py "b").
Proof.
  apply (extract_content_joins_text_blocks
           [ VDict [ (py "type", VStr (py "text")); (py "text", VStr (py "a")) ];
             VDict [ (py "type", VStr (py "image_url")) ];
             VStr (py "b") ]).
  reflexivity.
Defined.

(** X18, witness: a system message, a tool message and a message
    without role. *)
Lemma messages_to_prompt_paragraphs_witness :
  Server.messages_to_prompt
    (VList [ VDict [ (py "role", VStr (py "system"));
                     (py "content", VStr (py "Be terse")) ];
             VDict [ (py "role", VStr (py "tool"));
                     (py "content", VStr (py "42")) ];
             VDict [ (py "content", VStr (py "Hi")) ] ])
  = Ok (py "[System]: Be terse" ++ nl ++ nl ++ py "Hi").
Proof.
  apply (messages_to_prompt_paragraphs
           [ VDict [ (py "role", VStr (py "system"));
                     (py "content", VStr (py "Be terse")) ];
             VDict [ (py "role", VStr (py "tool"));
                     (py "content", VStr (py "42")) ];
             VDict [ (py "content", VStr (py "Hi")) ] ]).
  repeat constructor.
Defined.

(** X19, witness: a response format that carries a schema. *)
Lemma json_schema_only_from_json_schema_format_witness :
  exists d js schema,
    VDict [ (py "type", VStr (py "json_schema"));
            (py "json_schema",
             VDict [ (py "name", VStr (py "answer"));
                     (py "schema",
                      VDict [ (py "type", VStr (py "object")) ]) ]) ]
    = VDict d
    /\ is_str (dict_get d (py "type") VNone) (py "json_schema") = true
    /\ dict_get d (py "json_schema") (VDict []) = VDict js
    /\ lookup js (py "schema") = Some schema
    /\ truthy schema = true
    /\ Examples.dumps (VDict [ (py "type", VStr (py "object")) ])
       = json_dumps schema.
Proof.
  apply (json_schema_only_from_json_schema_format
           (VDict [ (py "type", VStr (py "json_schema"));
                    (py "json_schema",
                     VDict [ (py "name", VStr (py "answer"));
                             (py "schema",
                              VDict [ (py "type", VStr (py "object")) ]) ]) ])).
  reflexivity.
Defined.

(** X20, witness: an agent script that exits 1 with a blank line on
    standard error when asked for [claude]. *)
Lemma call_agent_reports_every_failure_witness :
  startswith
    (@Server.call_agent (Examples.gateway (Examples.fails_for "claude" " "))
       (py "Hi") (VStr (py "claude")) VNone VNone VNone 300)
    (py "Error: ") = true
  /\ @Server.call_agent (Examples.gateway (Examples.fails_for "claude" " "))
       (py "Hi") (VStr (py "claude")) VNone VNone VNone 300
     = py "Error: Agent execution failed".
Proof.
  pose proof (call_agent_reports_every_failure
                (G := Examples.gateway (Examples.fails_for "claude" " "))
                (py "Hi") (VStr (py "claude")) VNone VNone VNone 300) as T.
  change (Server.subprocess_run _ 300 _)
    with (Server.Completed 1 [] (py " " ++ nl)) in T.
  destruct T as (_ & T).
  destruct (T ltac:(discriminate)) as (S & F).
  split; [exact S|]. apply F. reflexivity.
Defined.

End GatewayExtraExamples.
